(** * InlineEditsLongDistanceHint: the long-distance hint widget

    A shallow embedding of
    [vs/editor/contrib/inlineCompletions/browser/view/inlineEdits/
     inlineEditsViews/inlineEditsLongDistanceHint.ts].

    Numbers.  TypeScript's [number] is an IEEE double.  Every number the
    widget computes with is a line number, a column, a version id or a pixel
    measure combined by [+], [-], [<], [>] and [Math.max] only; on integers
    below 2^53 these operations are exact, so numbers are embedded as [Z].

    Observables.  A [derived] is embedded as the function that computes it
    from the values it reads; the one derived that keeps a value between two
    computations ([derivedObservableWithCache]) is embedded with its cache
    passed explicitly.  What the widget writes (styles of DOM elements, the
    hidden areas, the size and the scroll position of the preview editor) is
    a record that the reactions update.  The reactive graph of the
    constructor, with the values its deriveds hold and the reactions each
    change of an input causes, comes last among the definitions. *)

From Stdlib Require Import ZArith List Bool String Lia Sorted.
Import ListNotations.
Local Open Scope Z_scope.

Set Implicit Arguments.

(** ** Values of the editor core used by the widget

    These classes live in [vs/editor/common/core]; the widget builds them
    and reads their fields.  Each is embedded as the record of the numbers
    it is built from, with the operations the widget calls. *)

(** [Number.MAX_SAFE_INTEGER], 2^53 - 1. *)
Definition MAX_SAFE_INTEGER : Z := 9007199254740991.

Module Position.
Record t := make { lineNumber : Z; column : Z }.
End Position.

Module Point.
Record t := make { x : Z; y : Z }.
End Point.

Module Range.
(** [new Range(startLineNumber, startColumn, endLineNumber, endColumn)]. *)
Record t := make {
  startLineNumber : Z;
  startColumn : Z;
  endLineNumber : Z;
  endColumn : Z
}.

(** [isEmpty()]: start and end coincide. *)
Definition isEmpty (r : t) : bool :=
  (startLineNumber r =? endLineNumber r) && (startColumn r =? endColumn r).

(** A range is in order when its start is not after its end; the class
    keeps such arguments as they are given. *)
Definition ordered (r : t) : Prop :=
  startLineNumber r < endLineNumber r \/
  (startLineNumber r = endLineNumber r /\ startColumn r <= endColumn r).

(** The lines a range touches, as a hidden area of an editor uses it. *)
Definition coversLine (r : t) (line : Z) : bool :=
  (startLineNumber r <=? line) && (line <=? endLineNumber r).
End Range.

Module LineRange.
(** [new LineRange(startLineNumber, endLineNumberExclusive)]. *)
Record t := make { startLineNumber : Z; endLineNumberExclusive : Z }.

(** [LineRange.ofLength(startLineNumber, length)]. *)
Definition ofLength (start length : Z) : t := make start (start + length).

Definition isEmpty (r : t) : bool :=
  startLineNumber r =? endLineNumberExclusive r.

Definition contains (r : t) (line : Z) : bool :=
  (startLineNumber r <=? line) && (line <? endLineNumberExclusive r).

(** [toInclusiveRange()]: [null] for an empty line range. *)
Definition toInclusiveRange (r : t) : option Range.t :=
  if isEmpty r then None
  else Some (Range.make (startLineNumber r) 1
                        (endLineNumberExclusive r - 1) MAX_SAFE_INTEGER).
End LineRange.

Module OffsetRange.
(** [new OffsetRange(start, endExclusive)]. *)
Record t := make { start : Z; endExclusive : Z }.
Definition length (r : t) : Z := endExclusive r - start r.
End OffsetRange.

Module Rect.
(** [new Rect(left, top, right, bottom)]. *)
Record t := make { left : Z; top : Z; right : Z; bottom : Z }.

Definition width (r : t) : Z := right r - left r.
Definition height (r : t) : Z := bottom r - top r.

Definition fromLeftTopWidthHeight (l tp w h : Z) : t :=
  make l tp (l + w) (tp + h).

(** [withMargin(marginTop, marginRight, marginBottom, marginLeft)]. *)
Definition withMargin4 (mTop mRight mBottom mLeft : Z) (r : t) : t :=
  make (left r - mLeft) (top r - mTop) (right r + mRight) (bottom r + mBottom).

(** [withMargin(margin)]: the same margin on the four sides. *)
Definition withMargin (m : Z) (r : t) : t := withMargin4 m m m m r.

Definition translateX (delta : Z) (r : t) : t :=
  make (left r + delta) (top r) (right r + delta) (bottom r).

(** The class refuses a rectangle whose left is right of its right or
    whose top is below its bottom. *)
Definition valid (r : t) : Prop := left r <= right r /\ top r <= bottom r.
End Rect.

(** ** Errors

    Reading a property of [undefined] throws a [TypeError]; the derivations
    that can do so return a [result]. *)

Inductive JsError := TypeError.

Inductive result (A : Type) : Type :=
| Ok (a : A)
| Throw (e : JsError).
Arguments Ok {A} a.
Arguments Throw {A} e.

Definition bind {A B} (r : result A) (k : A -> result B) : result B :=
  match r with
  | Ok a => k a
  | Throw e => Throw e
  end.

Notation "x <- r ;; k" := (bind r (fun x => k))
  (at level 61, r at next level, right associativity).

(** [o.p] where [o] may be [undefined]. *)
Definition prop {A B} (o : option A) (p : A -> B) : result B :=
  match o with
  | Some a => Ok (p a)
  | None => Throw TypeError
  end.

(** ** The view state (ILongDistanceViewState) and what it is made of *)

(** A reference to an object.  An observable tells a new value from the
    old one with [===], which on objects compares references; where the
    widget relies on that, the object is embedded with its identity. *)
Record Ref (A : Type) := { identity : nat; deref : A }.

(** An inner change of a diff entry ([RangeMapping]). *)
Record RangeMapping := {
  originalRange : Range.t;
  modifiedRange : Range.t
}.

(** A diff entry; [innerChanges] is an optional property. *)
Record DetailedLineRangeMapping := {
  original : LineRange.t;
  modified : LineRange.t;
  innerChanges : option (list RangeMapping)
}.

(** [edit.lineEdit], of which the widget reads [newLines]. *)
Record LineEdit := { newLines : list string }.

(** The properties of [InlineEditWithChanges] the widget reads. *)
Record InlineEditWithChanges := {
  originalLineRange : LineRange.t;
  modifiedLineRange : LineRange.t;
  displayRange : Ref LineRange.t;
  lineEdit : LineEdit
}.

Record ILongDistanceHint := { lineNumber : Z }.

Record ILongDistanceViewState := {
  hint : ILongDistanceHint;
  newTextLineCount : Z;
  edit : InlineEditWithChanges;
  diff : list DetailedLineRangeMapping
}.

(** ** The editors, the text model and the theme, as the widget reads them *)

Record ITextModel := { getLineCount : Z }.

Record MinimapLayout := { minimapLeft : Z; minimapWidth : Z }.

Record EditorLayoutInfo := {
  width : Z;
  contentLeft : Z;
  verticalScrollbarWidth : Z;
  minimap : MinimapLayout
}.

(** The current state of a code editor: what [observableCodeEditor(editor)]
    exposes and what the helpers of [utils.js] measure in it. *)
Record ICodeEditor := {
  layoutInfo : EditorLayoutInfo;
  scrollLeft : Z;
  cursorPosition : option Position.t;
  versionId : Z;
  (** the coordinates [observePosition] reports for a position, [null]
      when it has none *)
  positionTopLeft : Position.t -> option Point.t;
  (** [observeLineHeightForLine(lineNumber)] *)
  lineHeightForLine : Z -> Z;
  (** [maxContentWidthInRange(editorObs, range, reader)] *)
  maxContentWidthInRange : LineRange.t -> Z;
  (** [getContentRenderWidth(line, editor, textModel)] *)
  getContentRenderWidth : string -> ITextModel -> Z;
  getContentWidth : Z
}.

Inductive Color := transparent | rgba (r g b a : Z).

(** [getColorTheme().getColor(originalBackgroundColor)]. *)
Record IColorTheme := { originalBackgroundColor : option Color }.

(** Everything the widget observes at one moment. *)
Record Inputs := {
  _viewState : option ILongDistanceViewState;
  _editor : ICodeEditor;
  previewEditor : ICodeEditor;
  _previewTextModel : ITextModel;
  colorTheme : IColorTheme
}.

(** ** Constants of the file *)

Definition BORDER_WIDTH : Z := 1.
Definition WIDGET_SEPARATOR_WIDTH : Z := 1.
Definition BORDER_RADIUS : Z := 4.
Definition ORIGINAL_END_PADDING : Z := 20.
Definition MODIFIED_END_PADDING : Z := 12.

(** ** [static fitsInsideViewport(editor, textModel, edit, reader)] *)

Definition fitsInsideViewport
  (editor : ICodeEditor) (textModel : ITextModel) (edit : InlineEditWithChanges)
  : bool :=
  let editorWidth := width (layoutInfo editor) in
  let editorContentLeft := contentLeft (layoutInfo editor) in
  let editorVerticalScrollbar := verticalScrollbarWidth (layoutInfo editor) in
  let minimapWidth :=
    if negb (minimapLeft (minimap (layoutInfo editor)) =? 0)
    then minimapWidth (minimap (layoutInfo editor))
    else 0 in
  let maxOriginalContent :=
    maxContentWidthInRange editor (deref (displayRange edit)) in
  let maxModifiedContent :=
    fold_left
      (fun max line => Z.max max (getContentRenderWidth editor line textModel))
      (newLines (lineEdit edit)) 0 in
  let originalPadding := ORIGINAL_END_PADDING in
  let modifiedPadding := MODIFIED_END_PADDING + 2 * BORDER_WIDTH in
  maxOriginalContent + maxModifiedContent + originalPadding + modifiedPadding
  <? editorWidth - editorContentLeft - editorVerticalScrollbar - minimapWidth.

(** ** The derived values of the constructor *)

(** The two values of the CSS [display] property the widget uses. *)
Inductive Display := block | none.

(** [this._display]: a view state is an object, so [!!viewState] is true
    exactly when it is not [undefined]. *)
Definition _display (i : Inputs) : Display :=
  match _viewState i with
  | Some _ => block
  | None => none
  end.

(** The line range handed to [InlineEditsGutterIndicator]:
    [LineRange.ofLength(this._viewState.read(reader)!.diff[0]
                          .modified.startLineNumber, 1)].
    The [!] is erased by the compiler; [undefined.diff] and
    [undefined.modified] throw. *)
Definition gutterIndicatorLineRange (i : Inputs) : result LineRange.t :=
  d <- prop (_viewState i) diff ;;
  m <- prop (nth_error d 0) modified ;;
  Ok (LineRange.ofLength (LineRange.startLineNumber m) 1).

(** [getHorizontalContentRangeInPreviewEditorToShow(editor, diff)]: the
    first [return] is the one taken; the [return] after it, of
    [new OffsetRange(0, editor.getContentWidth())], is never reached. *)
Definition getHorizontalContentRangeInPreviewEditorToShow
  (editor : ICodeEditor) (diff : list DetailedLineRangeMapping)
  : OffsetRange.t :=
  OffsetRange.make 55 400.

(** [this._viewState.read(reader)?.diff ?? []]. *)
Definition horizontalContentRangeInPreviewEditorToShow (i : Inputs)
  : OffsetRange.t :=
  getHorizontalContentRangeInPreviewEditorToShow (previewEditor i)
    (match _viewState i with
     | Some viewState => diff viewState
     | None => []
     end).

(** The [hiddenAreas] array [_updatePreviewEditor] builds for a view state. *)
Definition hiddenAreasOf
  (viewState : ILongDistanceViewState) (previewTextModel : ITextModel)
  : list Range.t :=
  let range := originalLineRange (edit viewState) in
  let hiddenAreas : list Range.t := [] in
  let hiddenAreas :=
    if LineRange.startLineNumber range >? 1
    then hiddenAreas ++ [Range.make 1 1 (LineRange.startLineNumber range - 1) 1]
    else hiddenAreas in
  let hiddenAreas :=
    if LineRange.startLineNumber range + newTextLineCount viewState
       <? getLineCount previewTextModel + 1
    then hiddenAreas ++
         [Range.make (LineRange.startLineNumber range + newTextLineCount viewState)
                     1 (getLineCount previewTextModel + 1) 1]
    else hiddenAreas in
  hiddenAreas.

(** [this._previewEditorWidth]; with a view state it also reads
    [_updatePreviewEditor], for its effect. *)
Definition _previewEditorWidth (i : Inputs) : Z :=
  match _viewState i with
  | None => 0
  | Some viewState =>
      maxContentWidthInRange (previewEditor i) (modifiedLineRange (edit viewState))
  end.

(** [this._cursorPosIfTouchesEdit]. *)
Definition _cursorPosIfTouchesEdit (i : Inputs) : option Position.t :=
  match _viewState i, cursorPosition (_editor i) with
  | Some viewState, Some cursorPos =>
      if LineRange.contains (modifiedLineRange (edit viewState))
                            (Position.lineNumber cursorPos)
      then Some cursorPos
      else None
  | _, _ => None
  end.

(** [this._hintTextPosition]. *)
Definition _hintTextPosition (i : Inputs) : option Position.t :=
  match _viewState i with
  | Some viewState =>
      Some (Position.make (lineNumber (hint viewState)) MAX_SAFE_INTEGER)
  | None => None
  end.

(** [this._hintTopLeft = this._editorObs.observePosition(this._hintTextPosition)]:
    the coordinates of the observed position in the host editor, [null]
    while the position is [null]. *)
Definition _hintTopLeft (i : Inputs) : option Point.t :=
  match _hintTextPosition i with
  | Some position => positionTopLeft (_editor i) position
  | None => None
  end.

(** [this._originalDisplayRange = this._viewState.map(e => e?.edit.displayRange)]. *)
Definition _originalDisplayRange (i : Inputs) : option (Ref LineRange.t) :=
  match _viewState i with
  | Some e => Some (displayRange (edit e))
  | None => None
  end.

Module PreviewLayout.
(** The object [_previewEditorLayoutInfo] returns. *)
Record t := make {
  codeEditorRect : Rect.t;
  codeScrollLeft : Z;
  contentLeft : Z;
  widgetRect : Rect.t;
  codeEditorRectWithPadding : Rect.t;
  desiredPreviewEditorScrollLeft : Z;
  previewEditorWidth : Z
}.
End PreviewLayout.

(** [this._previewEditorLayoutInfo]. *)
Definition _previewEditorLayoutInfo (i : Inputs) : option PreviewLayout.t :=
  match _viewState i with
  | None => None
  | Some viewState =>
      let horizontalScrollOffset := scrollLeft (_editor i) in
      let editorLayout := layoutInfo (_editor i) in
      let previewEditorHeight :=
        lineHeightForLine (previewEditor i)
          (LineRange.startLineNumber (modifiedLineRange (edit viewState))) in
      let h := horizontalContentRangeInPreviewEditorToShow i in
      let previewEditorWidth := OffsetRange.length h in
      match _hintTopLeft i with
      | None => None
      | Some hintTopLeft =>
          let margin := 10 in
          let codeEditorRect :=
            Rect.translateX (5 + 3 + 2)
              (Rect.withMargin 5
                 (Rect.fromLeftTopWidthHeight
                    (Point.x hintTopLeft + contentLeft editorLayout + margin)
                    (Point.y hintTopLeft) previewEditorWidth previewEditorHeight)) in
          let codeEditorRectWithPadding := Rect.withMargin 3 codeEditorRect in
          let widgetRect := Rect.withMargin4 2 2 20 2 codeEditorRectWithPadding in
          Some (PreviewLayout.make
                  codeEditorRect
                  horizontalScrollOffset
                  (contentLeft editorLayout)
                  widgetRect
                  codeEditorRectWithPadding
                  (OffsetRange.start h)
                  previewEditorWidth)
      end
  end.

(** [this._originalBackgroundColor]. *)
Definition _originalBackgroundColor (i : Inputs) : Color :=
  match originalBackgroundColor (colorTheme i) with
  | Some c => c
  | None => transparent
  end.

(** ** [this._decorations] *)

(** The three decoration options the derived registers. *)
Inductive DecorationOptions :=
| diffWholeLineAddDecoration
| diffAddDecoration
| diffAddDecorationEmpty.

Record IModelDeltaDecoration := {
  range : Range.t;
  options : DecorationOptions
}.

(** [viewState.diff.length === 1 && viewState.diff[0].innerChanges?.length === 1]. *)
Definition hasOneInnerChange (viewState : ILongDistanceViewState) : bool :=
  match diff viewState with
  | [m] =>
      match innerChanges m with
      | Some inner => (List.length inner =? 1)%nat
      | None => false
      end
  | _ => false
  end.

(** The decorations one diff entry [m] contributes.  The range of
    [m.modified.toInclusiveRange()!] is asked only of a line range that is
    not empty, which has one; [m.innerChanges || []] is the empty list for
    an entry without inner changes. *)
Definition decorationsOf (oneInner : bool) (m : DetailedLineRangeMapping)
  : list IModelDeltaDecoration :=
  let showEmptyDecorations := true in
  if LineRange.isEmpty (modified m) || LineRange.isEmpty (original m) then
    if negb (LineRange.isEmpty (modified m)) then
      match LineRange.toInclusiveRange (modified m) with
      | Some r => [ {| range := r; options := diffWholeLineAddDecoration |} ]
      | None => []
      end
    else []
  else
    flat_map
      (fun i =>
         if LineRange.contains (modified m) (Range.startLineNumber (modifiedRange i))
         then [ {| range := modifiedRange i;
                   options :=
                     if Range.isEmpty (modifiedRange i) && showEmptyDecorations
                        && oneInner
                     then diffAddDecorationEmpty
                     else diffAddDecoration |} ]
         else [])
      (match innerChanges m with
       | Some inner => inner
       | None => []
       end).

Definition _decorations (i : Inputs) : list IModelDeltaDecoration :=
  match _viewState i with
  | None => []
  | Some viewState =>
      flat_map (decorationsOf (hasOneInnerChange viewState)) (diff viewState)
  end.

(** ** What the widget renders

    The state the reactions of the constructor write to: the root element
    [this._view], the element of [this._widgetContent] (pixel values of its
    [top], [left] and [width] styles), and the preview editor. *)

Record ViewElement := { style_display : Display }.

Record ContentStyle := {
  style_top : option Z;
  style_left : option Z;
  style_width : option Z
}.

Module Dimension.
(** The argument of [previewEditor.layout]. *)
Record t := make { height : Z; width : Z }.
End Dimension.

Record Rendered := {
  _view : option ViewElement;
  widgetContentStyle : ContentStyle;
  previewHiddenAreas : list Range.t;
  previewDimension : option Dimension.t;
  previewScrollLeft : Z
}.

Definition set_view (v : option ViewElement) (d : Rendered) : Rendered :=
  {| _view := v;
     widgetContentStyle := widgetContentStyle d;
     previewHiddenAreas := previewHiddenAreas d;
     previewDimension := previewDimension d;
     previewScrollLeft := previewScrollLeft d |}.

Definition setHiddenAreas (areas : list Range.t) (d : Rendered) : Rendered :=
  {| _view := _view d;
     widgetContentStyle := widgetContentStyle d;
     previewHiddenAreas := areas;
     previewDimension := previewDimension d;
     previewScrollLeft := previewScrollLeft d |}.

Definition layout (dim : Dimension.t) (d : Rendered) : Rendered :=
  {| _view := _view d;
     widgetContentStyle := widgetContentStyle d;
     previewHiddenAreas := previewHiddenAreas d;
     previewDimension := Some dim;
     previewScrollLeft := previewScrollLeft d |}.

Definition set_widgetContentStyle (s : ContentStyle) (d : Rendered) : Rendered :=
  {| _view := _view d;
     widgetContentStyle := s;
     previewHiddenAreas := previewHiddenAreas d;
     previewDimension := previewDimension d;
     previewScrollLeft := previewScrollLeft d |}.

Definition setScrollLeft (px : Z) (d : Rendered) : Rendered :=
  {| _view := _view d;
     widgetContentStyle := widgetContentStyle d;
     previewHiddenAreas := previewHiddenAreas d;
     previewDimension := previewDimension d;
     previewScrollLeft := px |}.

(** The [display: this._display] style of the [n.div] of [this._view],
    kept up to date on the element. *)
Definition keepUpdated_view (i : Inputs) (d : Rendered) : Rendered :=
  match _view d with
  | Some _ => set_view (Some {| style_display := _display i |}) d
  | None => d
  end.

(** [this._updatePreviewEditor]. *)
Definition _updatePreviewEditor (i : Inputs) (d : Rendered) : Rendered :=
  let d :=
    match _view d with
    | Some _ => set_view (Some {| style_display := _display i |}) d
    | None => d
    end in
  match _viewState i with
  | None => d
  | Some viewState =>
      setHiddenAreas (hiddenAreasOf viewState (_previewTextModel i)) d
  end.

(** The first [autorun]: size of the preview editor and place of the widget. *)
Definition autorunLayout (i : Inputs) (d : Rendered) : Rendered :=
  match _previewEditorLayoutInfo i with
  | None => d
  | Some layoutInfo =>
      let editorRect := PreviewLayout.codeEditorRect layoutInfo in
      let d := layout (Dimension.make (Rect.height editorRect)
                                      (Rect.width editorRect)) d in
      set_widgetContentStyle
        {| style_top := Some (Rect.top (PreviewLayout.widgetRect layoutInfo));
           style_left := Some (Rect.left (PreviewLayout.widgetRect layoutInfo));
           style_width := Some (Rect.width (PreviewLayout.widgetRect layoutInfo)) |}
        d
  end.

(** The second [autorun]: horizontal scroll position of the preview editor. *)
Definition autorunScrollLeft (i : Inputs) (d : Rendered) : Rendered :=
  match _previewEditorLayoutInfo i with
  | None => d
  | Some layoutInfo =>
      setScrollLeft (PreviewLayout.desiredPreviewEditorScrollLeft layoutInfo) d
  end.

(** One round of the reactions, for the current values of the inputs. *)
Definition react (i : Inputs) (d : Rendered) : Rendered :=
  _updatePreviewEditor i (autorunScrollLeft i (autorunLayout i (keepUpdated_view i d))).

(** What the constructor leaves: [this._view] is created with its display
    style, the preview editor shows its whole model, and the reactions have
    run once ([autorun] runs at once, [_updatePreviewEditor] by
    [recomputeInitiallyAndOnChange] on the last line). *)
Definition constructed (i : Inputs) : Rendered :=
  react i
    {| _view := Some {| style_display := _display i |};
       widgetContentStyle :=
         {| style_top := None; style_left := None; style_width := None |};
       previewHiddenAreas := [];
       previewDimension := None;
       previewScrollLeft := 0 |}.

(** The widget over time: the inputs it is constructed with, then the
    successive values of the inputs, every reaction running for each of
    them.  [graphAfter] tells the changes apart and runs for each only the
    reactions it causes. *)
Definition rendered (initial : Inputs) (changes : list Inputs) : Rendered :=
  fold_left (fun d i => react i d) changes (constructed initial).

(** ** [this._editorMaxContentWidthInRange]

    The outer [derived] reads [_originalDisplayRange] and, when that is
    defined, the editor's [versionId]; each time one of them changes it
    returns a new [derivedObservableWithCache], whose compute function
    receives the value it returned last ([undefined] the first time).  The
    state between two computations is what the outer derived read last and
    the value the current inner observable returned last.

    The file itself never reads this derived.  A computation from
    [noCache] is what a read gives when nothing has kept the derived
    alive; [widthCacheAfter] and [observedMaxContentWidth] describe it
    under a reader that keeps it alive from one computation to the next. *)

(** What the outer derived depends on: the display range, as the object
    it is, and the version of the text.  The identity is the one the view
    state gives its display range; a view state whose [displayRange] is a
    new object each time it is asked has a new identity at each change. *)
Definition Dependencies : Type := (option nat * Z)%type.

Definition dependencies (i : Inputs) : Dependencies :=
  (option_map (@identity _) (_originalDisplayRange i), versionId (_editor i)).

Definition Dependencies_eqb (a b : Dependencies) : bool :=
  match fst a, fst b with
  | Some r, Some r' => (r =? r')%nat && (snd a =? snd b)
  | None, None => snd a =? snd b
  | _, _ => false
  end.

Record WidthCache := {
  lastRead : option Dependencies;
  lastValue : option Z
}.

Definition noCache : WidthCache := {| lastRead := None; lastValue := None |}.

(** The compute function of the inner observable:
    [Math.max(maxWidth, lastValue ?? 0)]. *)
Definition maxObservedWidth
  (editor : ICodeEditor) (originalDisplayRange : LineRange.t)
  (lastValue : option Z) : Z :=
  let maxWidth := maxContentWidthInRange editor originalDisplayRange in
  Z.max maxWidth (match lastValue with Some v => v | None => 0 end).

(** One computation: the value, and the state it leaves. *)
Definition _editorMaxContentWidthInRange (i : Inputs) (c : WidthCache)
  : Z * WidthCache :=
  let last :=
    match lastRead c with
    | Some d => if Dependencies_eqb d (dependencies i) then lastValue c else None
    | None => None
    end in
  match _originalDisplayRange i with
  | None =>
      (0, {| lastRead := Some (dependencies i); lastValue := None |})
  | Some originalDisplayRange =>
      let v := maxObservedWidth (_editor i) (deref originalDisplayRange) last in
      (v, {| lastRead := Some (dependencies i); lastValue := Some v |})
  end.

(** The state after the derived was computed for each of [history] in
    turn, under a reader that keeps it alive in between. *)
Definition widthCacheAfter (history : list Inputs) : WidthCache :=
  fold_left (fun c i => snd (_editorMaxContentWidthInRange i c)) history noCache.

(** The value computed for [current] after [history], under such a reader. *)
Definition observedMaxContentWidth (history : list Inputs) (current : Inputs) : Z :=
  fst (_editorMaxContentWidthInRange current (widthCacheAfter history)).

(** The observations of [history] made since the dependencies last took
    their current value, most recent first. *)
Fixpoint sinceReset (d : Dependencies) (past : list Inputs) : list Inputs :=
  match past with
  | [] => []
  | i :: older =>
      if Dependencies_eqb (dependencies i) d then i :: sinceReset d older else []
  end.

(** The content width of the display range in the host editor, as one
    observation measures it. *)
Definition observedWidth (i : Inputs) : Z :=
  match _originalDisplayRange i with
  | Some r => maxContentWidthInRange (_editor i) (deref r)
  | None => 0
  end.

(** The largest of 0 and the widths measured in [observations]. *)
Definition maxWidthIn (observations : list Inputs) : Z :=
  fold_right (fun i m => Z.max (observedWidth i) m) 0 observations.

(** The state of the derived after the observations [past], most recent
    first, written out: what it read last, and the largest width measured
    since the dependencies took that value. *)
Definition cacheOf (past : list Inputs) : WidthCache :=
  match past with
  | [] => noCache
  | i :: older =>
      {| lastRead := Some (dependencies i);
         lastValue :=
           match _originalDisplayRange i with
           | Some _ => Some (maxWidthIn (i :: sinceReset (dependencies i) older))
           | None => None
           end |}
  end.

(** ** The widget content and its events

    The DOM's mouse events, its windows and the node that [n.div] returns
    belong to the browser and to [dom.js]; the handlers of the file are
    written over them. *)

Section Events.

Variable MouseEvent : Type.
Variable Window : Type.
Variable getWindow : MouseEvent -> Window.

(** The node of [this._widgetContent] and its hover observable. *)
Variable ObserverNode : Type.
Variable didMouseMoveDuringHover : ObserverNode -> bool.

(** [new StandardMouseEvent(targetWindow, e)]. *)
Record StandardMouseEvent := {
  targetWindow : Window;
  browserEvent : MouseEvent
}.

(** The events the widget content receives: the two it has a handler for,
    and the others, which only the node's own listeners see. *)
Inductive WidgetEvent :=
| mousedown (e : MouseEvent)
| click (e : MouseEvent)
| otherEvent (e : MouseEvent).

(** How the node's own listeners update it. *)
Variable nodeListeners : WidgetEvent -> ObserverNode -> ObserverNode.

Record Exposed := {
  _widgetContent : ObserverNode;
  (** the events [this._onDidClick] has fired, oldest first *)
  onDidClick : list StandardMouseEvent;
  (** the events whose default action a handler prevented *)
  defaultPrevented : list MouseEvent
}.

(** [this.isHovered = this._widgetContent.didMouseMoveDuringHover]. *)
Definition isHovered (w : Exposed) : bool :=
  didMouseMoveDuringHover (_widgetContent w).

(** [onmousedown] and [onclick] of the widget content. *)
Definition dispatch (ev : WidgetEvent) (w : Exposed) : Exposed :=
  let node := nodeListeners ev (_widgetContent w) in
  match ev with
  | mousedown e =>
      {| _widgetContent := node;
         onDidClick := onDidClick w;
         defaultPrevented := defaultPrevented w ++ [e] |}
  | click e =>
      {| _widgetContent := node;
         onDidClick :=
           onDidClick w
           ++ [ {| targetWindow := getWindow e; browserEvent := e |} ];
         defaultPrevented := defaultPrevented w |}
  | otherEvent _ =>
      {| _widgetContent := node;
         onDidClick := onDidClick w;
         defaultPrevented := defaultPrevented w |}
  end.

Definition dispatchAll (evs : list WidgetEvent) (w : Exposed) : Exposed :=
  fold_left (fun w ev => dispatch ev w) evs w.

(** The mouse-down events among some events, in order. *)
Definition mousedownsOf (evs : list WidgetEvent) : list MouseEvent :=
  flat_map (fun ev => match ev with mousedown e => [e] | _ => [] end) evs.

(** The clicks among some events, in order. *)
Definition clicksOf (evs : list WidgetEvent) : list MouseEvent :=
  flat_map (fun ev => match ev with click e => [e] | _ => [] end) evs.

End Events.

(** ** Notions the statements use *)

(** A line is hidden when one of the hidden areas covers it. *)
Definition hidden (areas : list Range.t) (line : Z) : bool :=
  existsb (fun r => Range.coversLine r line) areas.

(** The window of the preview: [newTextLineCount] lines from the first
    line of the edit's original range. *)
Definition inWindow (viewState : ILongDistanceViewState) (line : Z) : Prop :=
  LineRange.startLineNumber (originalLineRange (edit viewState)) <= line
  < LineRange.startLineNumber (originalLineRange (edit viewState))
    + newTextLineCount viewState.

(** ** The geometry of the preview and the inputs it is computed from *)

(** The part of the layout information that places and sizes the preview:
    [codeEditorRect], [widgetRect], [previewEditorWidth] and
    [desiredPreviewEditorScrollLeft]. *)
Definition Geometry : Type := (Rect.t * Rect.t * Z * Z)%type.

Definition geometry (i : Inputs) : option Geometry :=
  option_map
    (fun info =>
       (PreviewLayout.codeEditorRect info,
        PreviewLayout.widgetRect info,
        PreviewLayout.previewEditorWidth info,
        PreviewLayout.desiredPreviewEditorScrollLeft info))
    (_previewEditorLayoutInfo i).

(** The top-left corner of the widget. *)
Definition widgetTopLeft (i : Inputs) : option Point.t :=
  option_map
    (fun info =>
       Point.make (Rect.left (PreviewLayout.widgetRect info))
                  (Rect.top (PreviewLayout.widgetRect info)))
    (_previewEditorLayoutInfo i).

(** The inputs the geometry is said to be derived from. *)
Inductive InputKind :=
| hostScrollAndLayout
| cursorPositionInput
| diffContent
| themeInput.

Definition with_scrollAndLayout (s : Z) (l : EditorLayoutInfo) (e : ICodeEditor)
  : ICodeEditor :=
  {| layoutInfo := l;
     scrollLeft := s;
     cursorPosition := cursorPosition e;
     versionId := versionId e;
     positionTopLeft := positionTopLeft e;
     lineHeightForLine := lineHeightForLine e;
     maxContentWidthInRange := maxContentWidthInRange e;
     getContentRenderWidth := getContentRenderWidth e;
     getContentWidth := getContentWidth e |}.

Definition with_cursorPosition (c : option Position.t) (e : ICodeEditor)
  : ICodeEditor :=
  {| layoutInfo := layoutInfo e;
     scrollLeft := scrollLeft e;
     cursorPosition := c;
     versionId := versionId e;
     positionTopLeft := positionTopLeft e;
     lineHeightForLine := lineHeightForLine e;
     maxContentWidthInRange := maxContentWidthInRange e;
     getContentRenderWidth := getContentRenderWidth e;
     getContentWidth := getContentWidth e |}.

Definition with_editor (e : ICodeEditor) (i : Inputs) : Inputs :=
  {| _viewState := _viewState i;
     _editor := e;
     previewEditor := previewEditor i;
     _previewTextModel := _previewTextModel i;
     colorTheme := colorTheme i |}.

Definition with_diff (d : list DetailedLineRangeMapping)
  (viewState : ILongDistanceViewState) : ILongDistanceViewState :=
  {| hint := hint viewState;
     newTextLineCount := newTextLineCount viewState;
     edit := edit viewState;
     diff := d |}.

Definition with_viewState (v : option ILongDistanceViewState) (i : Inputs)
  : Inputs :=
  {| _viewState := v;
     _editor := _editor i;
     previewEditor := previewEditor i;
     _previewTextModel := _previewTextModel i;
     colorTheme := colorTheme i |}.

Definition with_colorTheme (t : IColorTheme) (i : Inputs) : Inputs :=
  {| _viewState := _viewState i;
     _editor := _editor i;
     previewEditor := previewEditor i;
     _previewTextModel := _previewTextModel i;
     colorTheme := t |}.

(** [b] is [a] but for the value of one input. *)
Definition differOnlyIn (k : InputKind) (a b : Inputs) : Prop :=
  match k with
  | hostScrollAndLayout =>
      exists s l, b = with_editor (with_scrollAndLayout s l (_editor a)) a
  | cursorPositionInput =>
      exists c, b = with_editor (with_cursorPosition c (_editor a)) a
  | diffContent =>
      exists viewState d,
        _viewState a = Some viewState
        /\ b = with_viewState (Some (with_diff d viewState)) a
  | themeInput =>
      exists t, b = with_colorTheme t a
  end.

(** ** The widest new line, for [fitsInsideViewport] *)

(** The largest of 0 and the render widths of [lines]. *)
Definition maxRenderWidth
  (editor : ICodeEditor) (textModel : ITextModel) (lines : list string) : Z :=
  fold_right (fun line m => Z.max (getContentRenderWidth editor line textModel) m)
             0 lines.

(** ** Notions for the widget over time and for its rectangles *)

(** The latest value [f] has among [past], most recent first: that of the
    most recent inputs for which there is one. *)
Fixpoint mostRecent {A : Type} (f : Inputs -> option A) (past : list Inputs)
  : option A :=
  match past with
  | [] => None
  | i :: older =>
      match f i with
      | Some a => Some a
      | None => mostRecent f older
      end
  end.

(** The styles the first [autorun] writes for a layout. *)
Definition placementOf (info : PreviewLayout.t) : ContentStyle :=
  {| style_top := Some (Rect.top (PreviewLayout.widgetRect info));
     style_left := Some (Rect.left (PreviewLayout.widgetRect info));
     style_width := Some (Rect.width (PreviewLayout.widgetRect info)) |}.

(** The size the first [autorun] gives the preview editor for a layout. *)
Definition dimensionOf (info : PreviewLayout.t) : Dimension.t :=
  Dimension.make (Rect.height (PreviewLayout.codeEditorRect info))
                 (Rect.width (PreviewLayout.codeEditorRect info)).

(** The hidden areas [_updatePreviewEditor] sets for some inputs, when it
    sets any. *)
Definition hiddenAreasFor (i : Inputs) : option (list Range.t) :=
  option_map (fun viewState => hiddenAreasOf viewState (_previewTextModel i))
             (_viewState i).

(** [inner] lies within [outer]. *)
Definition within (inner outer : Rect.t) : Prop :=
  Rect.left outer <= Rect.left inner
  /\ Rect.top outer <= Rect.top inner
  /\ Rect.right inner <= Rect.right outer
  /\ Rect.bottom inner <= Rect.bottom outer.

(** A line range as its class accepts it: the start is not after the end. *)
Definition validLineRange (r : LineRange.t) : Prop :=
  LineRange.startLineNumber r <= LineRange.endLineNumberExclusive r.

(** One hidden area ends before the next starts. *)
Definition before (a b : Range.t) : Prop :=
  Range.endLineNumber a < Range.startLineNumber b.

(** ** The reactive graph of the constructor

    The observables the constructor reads change one at a time.  The
    deriveds that something keeps alive hold a value: [_display] (the
    [n.div] of [this._view] and [_updatePreviewEditor]),
    [_previewEditorLayoutInfo] (the two [autorun]s) and [_decorations]
    ([setDecorations]); [_updatePreviewEditor] itself is kept alive by
    [recomputeInitiallyAndOnChange]. *)

(** A change of one thing the widget reads.  The first five are changes of
    observables that a derived kept alive reads; the cursor position, the
    version of the host's text and the theme are observables read only by
    deriveds that nothing reads; the line count of the preview text model
    is read by [getLineCount()], which is no observable. *)
Inductive Change :=
| viewStateChange (v : option ILongDistanceViewState)
| scrollLeftChange (px : Z)
| layoutInfoChange (l : EditorLayoutInfo)
| hintTopLeftChange (p : option Point.t)
| lineHeightChange (line height : Z)
| cursorPositionChange (c : option Position.t)
| versionIdChange (v : Z)
| themeChange (t : IColorTheme)
| lineCountChange (lineCount : Z).

Definition with_positionTopLeft (f : Position.t -> option Point.t)
  (e : ICodeEditor) : ICodeEditor :=
  {| layoutInfo := layoutInfo e;
     scrollLeft := scrollLeft e;
     cursorPosition := cursorPosition e;
     versionId := versionId e;
     positionTopLeft := f;
     lineHeightForLine := lineHeightForLine e;
     maxContentWidthInRange := maxContentWidthInRange e;
     getContentRenderWidth := getContentRenderWidth e;
     getContentWidth := getContentWidth e |}.

Definition with_lineHeightForLine (f : Z -> Z) (e : ICodeEditor) : ICodeEditor :=
  {| layoutInfo := layoutInfo e;
     scrollLeft := scrollLeft e;
     cursorPosition := cursorPosition e;
     versionId := versionId e;
     positionTopLeft := positionTopLeft e;
     lineHeightForLine := f;
     maxContentWidthInRange := maxContentWidthInRange e;
     getContentRenderWidth := getContentRenderWidth e;
     getContentWidth := getContentWidth e |}.

Definition with_versionId (v : Z) (e : ICodeEditor) : ICodeEditor :=
  {| layoutInfo := layoutInfo e;
     scrollLeft := scrollLeft e;
     cursorPosition := cursorPosition e;
     versionId := v;
     positionTopLeft := positionTopLeft e;
     lineHeightForLine := lineHeightForLine e;
     maxContentWidthInRange := maxContentWidthInRange e;
     getContentRenderWidth := getContentRenderWidth e;
     getContentWidth := getContentWidth e |}.

Definition with_previewEditor (e : ICodeEditor) (i : Inputs) : Inputs :=
  {| _viewState := _viewState i;
     _editor := _editor i;
     previewEditor := e;
     _previewTextModel := _previewTextModel i;
     colorTheme := colorTheme i |}.

Definition with_previewTextModel (m : ITextModel) (i : Inputs) : Inputs :=
  {| _viewState := _viewState i;
     _editor := _editor i;
     previewEditor := previewEditor i;
     _previewTextModel := m;
     colorTheme := colorTheme i |}.

(** The inputs after a change.  The observable behind [_hintTopLeft]
    holds the point it was last given, for whatever position. *)
Definition changed (c : Change) (i : Inputs) : Inputs :=
  match c with
  | viewStateChange v => with_viewState v i
  | scrollLeftChange px =>
      with_editor
        (with_scrollAndLayout px (layoutInfo (_editor i)) (_editor i)) i
  | layoutInfoChange l =>
      with_editor (with_scrollAndLayout (scrollLeft (_editor i)) l (_editor i)) i
  | hintTopLeftChange p =>
      with_editor (with_positionTopLeft (fun _ => p) (_editor i)) i
  | lineHeightChange line height =>
      with_previewEditor
        (with_lineHeightForLine
           (fun l => if l =? line then height
                     else lineHeightForLine (previewEditor i) l)
           (previewEditor i)) i
  | cursorPositionChange c => with_editor (with_cursorPosition c (_editor i)) i
  | versionIdChange v => with_editor (with_versionId v (_editor i)) i
  | themeChange t => with_colorTheme t i
  | lineCountChange n => with_previewTextModel {| getLineCount := n |} i
  end.

(** What [_previewEditorLayoutInfo] read besides the view state, the last
    time it ran: nothing when there was no view state (it returns before
    any other read), and otherwise the scroll position and the layout of
    the host, the height of the first modified line in the preview editor
    and [_hintTopLeft].  The line is the one whose height was read. *)
Definition layoutReads (i : Inputs) : option Z :=
  match _viewState i with
  | Some viewState =>
      Some (LineRange.startLineNumber (modifiedLineRange (edit viewState)))
  | None => None
  end.

(** Whether a change is one of something [_previewEditorLayoutInfo] read. *)
Definition layoutDependsOn (reads : option Z) (c : Change) : bool :=
  match c with
  | viewStateChange _ => true
  | scrollLeftChange _ | layoutInfoChange _ | hintTopLeftChange _ =>
      match reads with Some _ => true | None => false end
  | lineHeightChange line _ =>
      match reads with Some l => line =? l | None => false end
  | _ => false
  end.

(** The values the deriveds hold, what the layout last read, the inputs
    as they are now, and what is rendered. *)
Record Graph := {
  inputs : Inputs;
  display_value : Display;
  layout_value : option PreviewLayout.t;
  layout_reads : option Z;
  decorations_value : list IModelDeltaDecoration;
  drawn : Rendered
}.

(** [_previewEditorLayoutInfo] runs again, and the two [autorun]s after it. *)
Definition recomputeLayout (i : Inputs) (g : Graph) : Graph :=
  {| inputs := inputs g;
     display_value := display_value g;
     layout_value := _previewEditorLayoutInfo i;
     layout_reads := layoutReads i;
     decorations_value := decorations_value g;
     drawn := autorunScrollLeft i (autorunLayout i (drawn g)) |}.

(** [_display] and [_decorations] run again, then the display style of
    [this._view] and [_updatePreviewEditor]: each reads the view state. *)
Definition recomputeForViewState (i : Inputs) (g : Graph) : Graph :=
  {| inputs := inputs g;
     display_value := _display i;
     layout_value := layout_value g;
     layout_reads := layout_reads g;
     decorations_value := _decorations i;
     drawn := _updatePreviewEditor i (keepUpdated_view i (drawn g)) |}.

Definition set_inputs (i : Inputs) (g : Graph) : Graph :=
  {| inputs := i;
     display_value := display_value g;
     layout_value := layout_value g;
     layout_reads := layout_reads g;
     decorations_value := decorations_value g;
     drawn := drawn g |}.

(** Modelled from the spec: the observable framework
    ([base/common/observable.js]) is not part of this file; by the spec,
    recomputation occurs synchronously whenever a dependency changes
    value.  A dependency of a derived or of an [autorun] is an observable
    it read when it last ran; what nothing reads is not computed, and a
    change of what is no dependency runs nothing. *)
Definition step (c : Change) (g : Graph) : Graph :=
  let i := changed c (inputs g) in
  let g := set_inputs i g in
  let g := if layoutDependsOn (layout_reads g) c then recomputeLayout i g else g in
  match c with
  | viewStateChange _ => recomputeForViewState i g
  | _ => g
  end.

(** The graph as the constructor leaves it; the point [positionTopLeft]
    gives in [i] is the one the observable behind [_hintTopLeft] holds at
    first. *)
Definition constructedGraph (i : Inputs) : Graph :=
  {| inputs := i;
     display_value := _display i;
     layout_value := _previewEditorLayoutInfo i;
     layout_reads := layoutReads i;
     decorations_value := _decorations i;
     drawn := constructed i |}.

Definition graphAfter (initial : Inputs) (changes : list Change) : Graph :=
  fold_left (fun g c => step c g) changes (constructedGraph initial).


(** The values of the graph are those of its current inputs. *)
Definition upToDate (g : Graph) : Prop :=
  display_value g = _display (inputs g)
  /\ layout_value g = _previewEditorLayoutInfo (inputs g)
  /\ layout_reads g = layoutReads (inputs g)
  /\ decorations_value g = _decorations (inputs g).

(** What is rendered agrees with the values the deriveds hold: the root
    element has the display style, and with a layout the widget content
    has its place and the preview editor its size and scroll position. *)
Definition inStep (g : Graph) : Prop :=
  _view (drawn g) = Some {| style_display := display_value g |}
  /\ forall info, layout_value g = Some info ->
       widgetContentStyle (drawn g) = placementOf info
       /\ previewDimension (drawn g) = Some (dimensionOf info)
       /\ previewScrollLeft (drawn g)
          = PreviewLayout.desiredPreviewEditorScrollLeft info.

(** A change that sets a defined view state. *)
Definition definesViewState (c : Change) : bool :=
  match c with
  | viewStateChange (Some _) => true
  | _ => false
  end.

(** ** Example inputs *)

Definition exampleLayout (contentLeft : Z) : EditorLayoutInfo :=
  {| width := 1200;
     contentLeft := contentLeft;
     verticalScrollbarWidth := 14;
     minimap := {| minimapLeft := 1100; minimapWidth := 86 |} |}.

Definition exampleEditorAt (version contentLeft contentWidth : Z) : ICodeEditor :=
  {| layoutInfo := exampleLayout contentLeft;
     scrollLeft := 0;
     cursorPosition := Some (Position.make 3 1);
     versionId := version;
     positionTopLeft := fun p => Some (Point.make 300 (19 * Position.lineNumber p));
     lineHeightForLine := fun _ => 19;
     maxContentWidthInRange := fun _ => contentWidth;
     getContentRenderWidth := fun line _ => 8 * Z.of_nat (String.length line);
     getContentWidth := 800 |}.

Definition exampleEditor : Z -> Z -> ICodeEditor := exampleEditorAt 1.

Definition exampleEdit : InlineEditWithChanges :=
  {| originalLineRange := LineRange.make 40 41;
     modifiedLineRange := LineRange.make 40 42;
     displayRange := {| identity := 0; deref := LineRange.make 40 42 |};
     lineEdit := {| newLines := ["let x = 1;"%string; "let y = 2;"%string] |} |}.

Definition exampleDiff : list DetailedLineRangeMapping :=
  [ {| original := LineRange.make 40 41;
       modified := LineRange.make 40 42;
       innerChanges := None |} ].

Definition exampleViewState : ILongDistanceViewState :=
  {| hint := {| lineNumber := 12 |};
     newTextLineCount := 2;
     edit := exampleEdit;
     diff := exampleDiff |}.

Definition exampleInputs (viewState : option ILongDistanceViewState) : Inputs :=
  {| _viewState := viewState;
     _editor := exampleEditor 64 400;
     previewEditor := exampleEditor 0 200;
     _previewTextModel := {| getLineCount := 100 |};
     colorTheme := {| originalBackgroundColor := None |} |}.

Definition exampleRendered : Rendered := constructed (exampleInputs None).

(** A view state whose diff is the insertion of two lines at line 40. *)
Definition exampleInsertion : ILongDistanceViewState :=
  {| hint := {| lineNumber := 12 |};
     newTextLineCount := 2;
     edit := exampleEdit;
     diff := [ {| original := LineRange.make 40 40;
                  modified := LineRange.make 40 42;
                  innerChanges := None |} ] |}.

(** A view state whose diff is the removal of three characters of line 40. *)
Definition exampleRemoval : ILongDistanceViewState :=
  {| hint := {| lineNumber := 12 |};
     newTextLineCount := 1;
     edit := exampleEdit;
     diff := [ {| original := LineRange.make 40 41;
                  modified := LineRange.make 40 41;
                  innerChanges :=
                    Some [ {| originalRange := Range.make 40 5 40 8;
                              modifiedRange := Range.make 40 5 40 5 |} ] |} ] |}.


(** The example inputs with the display range [width] pixels wide in the
    host editor, at [version] of its text. *)
Definition exampleInputsAt (version width : Z) : Inputs :=
  with_editor (exampleEditorAt version 64 width)
              (exampleInputs (Some exampleViewState)).

(** * Properties *)

(** ** Hidden areas of the preview editor *)

Lemma hiddenAreasOf_eq viewState textModel :
  let start := LineRange.startLineNumber (originalLineRange (edit viewState)) in
  let n := newTextLineCount viewState in
  let count := getLineCount textModel in
  hiddenAreasOf viewState textModel =
  (if 1 <? start then [Range.make 1 1 (start - 1) 1] else [])
  ++ (if start + n <=? count then [Range.make (start + n) 1 (count + 1) 1] else []).
Proof.
  cbv zeta. unfold hiddenAreasOf.
  rewrite Z.gtb_ltb.
  replace (LineRange.startLineNumber (originalLineRange (edit viewState))
           + newTextLineCount viewState <? getLineCount textModel + 1)
    with (LineRange.startLineNumber (originalLineRange (edit viewState))
          + newTextLineCount viewState <=? getLineCount textModel).
  - destruct (1 <? _); destruct (_ <=? _); reflexivity.
  - destruct (Z.leb_spec
                (LineRange.startLineNumber (originalLineRange (edit viewState))
                 + newTextLineCount viewState) (getLineCount textModel));
      symmetry; [apply Z.ltb_lt | apply Z.ltb_ge]; lia.
Qed.

Lemma hiddenAreasOf_ordered viewState textModel :
  Forall Range.ordered (hiddenAreasOf viewState textModel).
Proof.
  rewrite hiddenAreasOf_eq. cbv zeta.
  apply Forall_app; split.
  - destruct (Z.ltb_spec 1
      (LineRange.startLineNumber (originalLineRange (edit viewState))));
      constructor; [|constructor].
    unfold Range.ordered; simpl. lia.
  - destruct (Z.leb_spec
      (LineRange.startLineNumber (originalLineRange (edit viewState))
       + newTextLineCount viewState) (getLineCount textModel));
      constructor; [|constructor].
    unfold Range.ordered; simpl. lia.
Qed.

Lemma hidden_hiddenAreasOf viewState textModel line :
  hidden (hiddenAreasOf viewState textModel) line = true <->
  (1 <= line < LineRange.startLineNumber (originalLineRange (edit viewState))) \/
  (LineRange.startLineNumber (originalLineRange (edit viewState))
   + newTextLineCount viewState <= getLineCount textModel /\
   LineRange.startLineNumber (originalLineRange (edit viewState))
   + newTextLineCount viewState <= line <= getLineCount textModel + 1).
Proof.
  rewrite hiddenAreasOf_eq. cbv zeta. unfold hidden.
  rewrite existsb_app, orb_true_iff.
  destruct (Z.ltb_spec 1
      (LineRange.startLineNumber (originalLineRange (edit viewState))));
  destruct (Z.leb_spec
      (LineRange.startLineNumber (originalLineRange (edit viewState))
       + newTextLineCount viewState) (getLineCount textModel));
  simpl; unfold Range.coversLine; simpl;
  rewrite ?orb_false_r, ?andb_true_iff, ?Z.leb_le; intuition (try discriminate; try lia).
Qed.

(** C3.  For a defined view state the update of the preview editor sets
    as hidden areas the range of lines 1 to start - 1 when start > 1, and
    the range from line start + newTextLineCount to one past the last line
    of the model when start + newTextLineCount is at most the line count
    (start being the first line of the edit's original range); both are in
    order.  A line of the window of newTextLineCount lines from start is
    in no hidden area, and every line of the model outside the window is
    in one. *)
Theorem updatePreviewEditor_hides_outside_window
  (i : Inputs) (d : Rendered) (viewState : ILongDistanceViewState)
  (Hdefined : _viewState i = Some viewState) :
  let start := LineRange.startLineNumber (originalLineRange (edit viewState)) in
  let n := newTextLineCount viewState in
  let count := getLineCount (_previewTextModel i) in
  let areas := previewHiddenAreas (_updatePreviewEditor i d) in
  areas =
    (if 1 <? start then [Range.make 1 1 (start - 1) 1] else [])
    ++ (if start + n <=? count then [Range.make (start + n) 1 (count + 1) 1] else [])
  /\ Forall Range.ordered areas
  /\ (forall line, inWindow viewState line -> hidden areas line = false)
  /\ (forall line, 1 <= line <= count -> ~ inWindow viewState line ->
                   hidden areas line = true).
Proof.
  cbv zeta.
  assert (Hareas : previewHiddenAreas (_updatePreviewEditor i d)
                   = hiddenAreasOf viewState (_previewTextModel i)).
  { unfold _updatePreviewEditor. rewrite Hdefined.
    destruct (_view d); reflexivity. }
  rewrite Hareas. split; [apply hiddenAreasOf_eq|].
  split; [apply hiddenAreasOf_ordered|].
  split.
  - intros line Hin. unfold inWindow in Hin.
    apply not_true_is_false. rewrite hidden_hiddenAreasOf. lia.
  - intros line Hmodel Hout. unfold inWindow in Hout.
    apply hidden_hiddenAreasOf. lia.
Qed.

Lemma updatePreviewEditor_hides_outside_window_example :
  hidden (previewHiddenAreas
            (_updatePreviewEditor (exampleInputs (Some exampleViewState))
                                  exampleRendered)) 41 = false
  /\ hidden (previewHiddenAreas
               (_updatePreviewEditor (exampleInputs (Some exampleViewState))
                                     exampleRendered)) 42 = true.
Proof.
  pose proof (updatePreviewEditor_hides_outside_window
                (exampleInputs (Some exampleViewState)) exampleRendered
                eq_refl) as H.
  cbv zeta in H. destruct H as (_ & _ & Hin & Hout).
  split.
  - apply Hin. unfold inWindow. simpl. lia.
  - apply Hout; [simpl; lia | unfold inWindow; simpl; lia].
Defined.

(** ** The line range of the gutter indicator *)

Lemma gutterIndicatorLineRange_undefined i :
  _viewState i = None -> gutterIndicatorLineRange i = Throw TypeError.
Proof. intros H. unfold gutterIndicatorLineRange. rewrite H. reflexivity. Qed.

Lemma gutterIndicatorLineRange_no_diff i viewState :
  _viewState i = Some viewState -> diff viewState = [] ->
  gutterIndicatorLineRange i = Throw TypeError.
Proof.
  intros H Hdiff. unfold gutterIndicatorLineRange.
  rewrite H. simpl. rewrite Hdiff. reflexivity.
Qed.

Lemma gutterIndicatorLineRange_first i viewState m rest :
  _viewState i = Some viewState -> diff viewState = m :: rest ->
  gutterIndicatorLineRange i
  = Ok (LineRange.make (LineRange.startLineNumber (modified m))
                       (LineRange.startLineNumber (modified m) + 1)).
Proof.
  intros H Hdiff. unfold gutterIndicatorLineRange.
  rewrite H. simpl. rewrite Hdiff. reflexivity.
Qed.

(** C4.  The derivation of the line range of the gutter indicator yields
    no line range when the view state is undefined, nor when it is defined
    with an empty diff: each time it throws a TypeError.  With a diff of at
    least one entry it yields the one-line range at the first line of the
    first entry's modified range. *)
Theorem gutterIndicatorLineRange_throws :
  gutterIndicatorLineRange (exampleInputs None) = Throw TypeError
  /\ gutterIndicatorLineRange
       (exampleInputs
          (Some {| hint := {| lineNumber := 12 |};
                   newTextLineCount := 2;
                   edit := exampleEdit;
                   diff := [] |}))
     = Throw TypeError
  /\ gutterIndicatorLineRange (exampleInputs (Some exampleViewState))
     = Ok (LineRange.make 40 41).
Proof. repeat split. Qed.

(** ** Display of the widget *)

Lemma react_view i d v :
  _view d = Some v -> _view (react i d) = Some {| style_display := _display i |}.
Proof.
  intros Hv. unfold react, _updatePreviewEditor, autorunScrollLeft,
    autorunLayout, keepUpdated_view.
  rewrite Hv.
  destruct (_previewEditorLayoutInfo i); destruct (_viewState i); reflexivity.
Qed.

Lemma rendered_snoc initial changes i :
  rendered initial (changes ++ [i]) = react i (rendered initial changes).
Proof. unfold rendered. rewrite fold_left_app. reflexivity. Qed.

Lemma rendered_view initial changes :
  _view (rendered initial changes)
  = Some {| style_display := _display (last changes initial) |}.
Proof.
  induction changes as [|i changes IH] using rev_ind.
  - apply (react_view initial) with (v := {| style_display := _display initial |}).
    reflexivity.
  - rewrite rendered_snoc, last_last. eapply react_view. exact IH.
Qed.

Lemma previewEditorLayoutInfo_undefined i :
  _viewState i = None -> _previewEditorLayoutInfo i = None.
Proof. intros H. unfold _previewEditorLayoutInfo. rewrite H. reflexivity. Qed.

Lemma react_undefined i d v :
  _viewState i = None -> _view d = Some v ->
  react i d = set_view (Some {| style_display := none |}) d.
Proof.
  intros H Hv. unfold react, _updatePreviewEditor, autorunScrollLeft,
    autorunLayout, keepUpdated_view.
  rewrite (previewEditorLayoutInfo_undefined i H), Hv, H.
  unfold _display. rewrite H. reflexivity.
Qed.

(** C1.  Whatever the inputs were and are, the display style derived from
    the current view state is 'none' when it is undefined and 'block' when
    it is defined, and it is the display style of the root view element.
    A reaction to an undefined view state changes nothing but that style:
    the hidden areas, the size and the scroll position of the preview
    editor and the styles of the widget content stay as they were, and
    there is no decoration. *)
Theorem undefined_viewState_hides_widget
  (initial : Inputs) (changes : list Inputs) :
  let current := last changes initial in
  let d := rendered initial changes in
  (_viewState current = None ->
   _display current = none /\ _view d = Some {| style_display := none |})
  /\ (forall viewState, _viewState current = Some viewState ->
      _display current = block /\ _view d = Some {| style_display := block |})
  /\ (forall next, _viewState next = None ->
      react next d = set_view (Some {| style_display := none |}) d
      /\ _decorations next = []
      /\ _previewEditorLayoutInfo next = None).
Proof.
  cbv zeta. pose proof (rendered_view initial changes) as Hview.
  repeat split.
  - unfold _display. rewrite H. reflexivity.
  - rewrite Hview. unfold _display. rewrite H. reflexivity.
  - unfold _display. rewrite H. reflexivity.
  - rewrite Hview. unfold _display. rewrite H. reflexivity.
  - eapply react_undefined; eassumption.
  - unfold _decorations. rewrite H. reflexivity.
  - apply previewEditorLayoutInfo_undefined. assumption.
Qed.

Lemma undefined_viewState_hides_widget_example :
  _view (rendered (exampleInputs (Some exampleViewState)) [exampleInputs None])
  = Some {| style_display := none |}
  /\ previewHiddenAreas
       (rendered (exampleInputs (Some exampleViewState)) [exampleInputs None])
     = [Range.make 1 1 39 1; Range.make 42 1 101 1].
Proof.
  split.
  - apply (undefined_viewState_hides_widget
             (exampleInputs (Some exampleViewState)) [exampleInputs None]).
    reflexivity.
  - reflexivity.
Defined.

(** ** Placement of the widget *)

Lemma previewEditorLayoutInfo_defined i viewState p :
  _viewState i = Some viewState ->
  positionTopLeft (_editor i)
    (Position.make (lineNumber (hint viewState)) MAX_SAFE_INTEGER) = Some p ->
  _previewEditorLayoutInfo i
  = Some
      (let w := 400 - 55 in
       let h := lineHeightForLine (previewEditor i)
                  (LineRange.startLineNumber (modifiedLineRange (edit viewState))) in
       let l := Point.x p + contentLeft (layoutInfo (_editor i)) + 10 in
       let codeEditorRect :=
         Rect.make (l - 5 + 10) (Point.y p - 5) (l + w + 5 + 10) (Point.y p + h + 5) in
       let codeEditorRectWithPadding :=
         Rect.make (l - 5 + 10 - 3) (Point.y p - 5 - 3)
                   (l + w + 5 + 10 + 3) (Point.y p + h + 5 + 3) in
       let widgetRect :=
         Rect.make (l - 5 + 10 - 3 - 2) (Point.y p - 5 - 3 - 2)
                   (l + w + 5 + 10 + 3 + 2) (Point.y p + h + 5 + 3 + 20) in
       PreviewLayout.make codeEditorRect (scrollLeft (_editor i))
         (contentLeft (layoutInfo (_editor i))) widgetRect
         codeEditorRectWithPadding 55 w).
Proof.
  intros Hdefined Hp.
  unfold _previewEditorLayoutInfo, _hintTopLeft, _hintTextPosition.
  rewrite Hdefined, Hp. reflexivity.
Qed.

Lemma previewEditorLayoutInfo_no_position i viewState :
  _viewState i = Some viewState ->
  positionTopLeft (_editor i)
    (Position.make (lineNumber (hint viewState)) MAX_SAFE_INTEGER) = None ->
  _previewEditorLayoutInfo i = None.
Proof.
  intros Hdefined Hp.
  unfold _previewEditorLayoutInfo, _hintTopLeft, _hintTextPosition.
  rewrite Hdefined, Hp. reflexivity.
Qed.

(** The rectangles of the layout are ones the [Rect] class accepts as soon
    as the line height is not negative. *)
Lemma previewEditorLayoutInfo_valid i viewState info :
  _viewState i = Some viewState ->
  0 <= lineHeightForLine (previewEditor i)
         (LineRange.startLineNumber (modifiedLineRange (edit viewState))) ->
  _previewEditorLayoutInfo i = Some info ->
  Rect.valid (PreviewLayout.codeEditorRect info)
  /\ Rect.valid (PreviewLayout.codeEditorRectWithPadding info)
  /\ Rect.valid (PreviewLayout.widgetRect info).
Proof.
  intros Hdefined Hh Hinfo.
  destruct (positionTopLeft (_editor i)
              (Position.make (lineNumber (hint viewState)) MAX_SAFE_INTEGER))
    as [p|] eqn:Hp.
  - rewrite (previewEditorLayoutInfo_defined i Hdefined Hp) in Hinfo.
    injection Hinfo as <-. cbv zeta. unfold Rect.valid. simpl. lia.
  - rewrite (previewEditorLayoutInfo_no_position i Hdefined Hp) in Hinfo.
    discriminate.
Qed.

Lemma react_widgetContentStyle i d info :
  _previewEditorLayoutInfo i = Some info ->
  widgetContentStyle (react i d)
  = {| style_top := Some (Rect.top (PreviewLayout.widgetRect info));
       style_left := Some (Rect.left (PreviewLayout.widgetRect info));
       style_width := Some (Rect.width (PreviewLayout.widgetRect info)) |}.
Proof.
  intros Hinfo.
  unfold react, _updatePreviewEditor, autorunScrollLeft, autorunLayout,
    keepUpdated_view.
  rewrite Hinfo.
  destruct d as [[v|] style areas dim scroll]; destruct (_viewState i);
    reflexivity.
Qed.

(** C6.  For a defined view state the hint text position is the hint's
    line number at column [Number.MAX_SAFE_INTEGER], and the coordinates
    the host editor reports for that position place the preview: the left
    of the preview rectangle is their x plus the content-left of the host
    plus the margins 10 - 5 + 10, its top is their y less 5, and the
    widget's left and top, which are the [left] and [top] styles written on
    the widget content, lie 3 + 2 further out.  Without coordinates there
    is no layout.  Two sets of inputs with the same host editor and the
    same hint line number place the widget at the same top-left corner. *)
Theorem widget_placed_at_hint
  (i : Inputs) (viewState : ILongDistanceViewState)
  (Hdefined : _viewState i = Some viewState) :
  let position := Position.make (lineNumber (hint viewState)) MAX_SAFE_INTEGER in
  _hintTextPosition i = Some position
  /\ _hintTopLeft i = positionTopLeft (_editor i) position
  /\ (positionTopLeft (_editor i) position = None ->
      _previewEditorLayoutInfo i = None)
  /\ (forall p, positionTopLeft (_editor i) position = Some p ->
      exists info,
        _previewEditorLayoutInfo i = Some info
        /\ Rect.left (PreviewLayout.codeEditorRect info)
           = Point.x p + contentLeft (layoutInfo (_editor i)) + 10 - 5 + 10
        /\ Rect.top (PreviewLayout.codeEditorRect info) = Point.y p - 5
        /\ Rect.left (PreviewLayout.widgetRect info)
           = Point.x p + contentLeft (layoutInfo (_editor i)) + 10 - 5 + 10 - 3 - 2
        /\ Rect.top (PreviewLayout.widgetRect info) = Point.y p - 5 - 3 - 2
        /\ forall d,
             style_left (widgetContentStyle (react i d))
             = Some (Rect.left (PreviewLayout.widgetRect info))
             /\ style_top (widgetContentStyle (react i d))
                = Some (Rect.top (PreviewLayout.widgetRect info)))
  /\ (forall i' viewState',
        _viewState i' = Some viewState' ->
        _editor i' = _editor i ->
        lineNumber (hint viewState') = lineNumber (hint viewState) ->
        widgetTopLeft i' = widgetTopLeft i).
Proof.
  cbv zeta.
  assert (Hpos : _hintTextPosition i
                 = Some (Position.make (lineNumber (hint viewState))
                                       MAX_SAFE_INTEGER)).
  { unfold _hintTextPosition. rewrite Hdefined. reflexivity. }
  split; [exact Hpos|].
  split; [unfold _hintTopLeft; rewrite Hpos; reflexivity|].
  split; [apply previewEditorLayoutInfo_no_position; assumption|].
  split.
  - intros p Hp. eexists. split.
    + apply (previewEditorLayoutInfo_defined i Hdefined Hp).
    + cbv zeta. simpl. repeat split.
      * rewrite (react_widgetContentStyle i d
                   (previewEditorLayoutInfo_defined i Hdefined Hp)).
        reflexivity.
      * rewrite (react_widgetContentStyle i d
                   (previewEditorLayoutInfo_defined i Hdefined Hp)).
        reflexivity.
  - intros i' viewState' Hdefined' Heditor Hline. unfold widgetTopLeft.
    destruct (positionTopLeft (_editor i)
                (Position.make (lineNumber (hint viewState)) MAX_SAFE_INTEGER))
      as [p|] eqn:Hp.
    + rewrite (previewEditorLayoutInfo_defined i Hdefined Hp).
      rewrite <- Heditor, <- Hline in Hp.
      rewrite (previewEditorLayoutInfo_defined i' Hdefined' Hp).
      cbv zeta. simpl. rewrite Heditor. reflexivity.
    + rewrite (previewEditorLayoutInfo_no_position i Hdefined Hp).
      rewrite <- Heditor, <- Hline in Hp.
      rewrite (previewEditorLayoutInfo_no_position i' Hdefined' Hp).
      reflexivity.
Qed.

Lemma widget_placed_at_hint_example :
  _hintTextPosition (exampleInputs (Some exampleViewState))
  = Some (Position.make 12 9007199254740991)
  /\ widgetTopLeft (exampleInputs (Some exampleViewState))
     = Some (Point.make 374 218).
Proof.
  pose proof (widget_placed_at_hint
                (exampleInputs (Some exampleViewState)) eq_refl) as H.
  cbv zeta in H. destruct H as (Hpos & _).
  split; [exact Hpos | reflexivity].
Defined.

(** ** What the geometry depends on *)

Lemma geometry_cursorPosition c i :
  geometry (with_editor (with_cursorPosition c (_editor i)) i) = geometry i.
Proof. reflexivity. Qed.

Lemma geometry_colorTheme t i :
  geometry (with_colorTheme t i) = geometry i.
Proof. reflexivity. Qed.

Lemma geometry_diff d viewState i :
  _viewState i = Some viewState ->
  geometry (with_viewState (Some (with_diff d viewState)) i) = geometry i.
Proof.
  intros Hdefined. unfold geometry, _previewEditorLayoutInfo, _hintTopLeft,
    _hintTextPosition.
  rewrite Hdefined. reflexivity.
Qed.

Lemma geometry_independent k a b :
  k <> hostScrollAndLayout -> differOnlyIn k a b -> geometry a = geometry b.
Proof.
  intros Hk Hdiff. destruct k; simpl in Hdiff.
  - contradiction.
  - destruct Hdiff as [c ->]. symmetry. apply geometry_cursorPosition.
  - destruct Hdiff as (viewState & d & Hdefined & ->). symmetry.
    apply geometry_diff. assumption.
  - destruct Hdiff as [t ->]. symmetry. apply geometry_colorTheme.
Qed.

(** The left of the preview rectangle follows the content-left of the
    host editor's layout. *)
Lemma geometry_layout_example :
  differOnlyIn hostScrollAndLayout
    (exampleInputs (Some exampleViewState))
    (with_editor (with_scrollAndLayout 0 (exampleLayout 80) (exampleEditor 64 400))
                 (exampleInputs (Some exampleViewState)))
  /\ option_map (fun g => Rect.left (fst (fst (fst g))))
       (geometry (exampleInputs (Some exampleViewState))) = Some 379
  /\ option_map (fun g => Rect.left (fst (fst (fst g))))
       (geometry
          (with_editor
             (with_scrollAndLayout 0 (exampleLayout 80) (exampleEditor 64 400))
             (exampleInputs (Some exampleViewState)))) = Some 395.
Proof.
  split; [|split; reflexivity].
  simpl. exists 0, (exampleLayout 80). reflexivity.
Qed.

(** C2, as stated, fails: there is an input among the four, the cursor
    position, such that no two runs that differ only in it differ in
    geometry. *)
Lemma geometry_ignores_cursorPosition :
  exists k, k = cursorPositionInput
    /\ forall a b, differOnlyIn k a b -> geometry a = geometry b.
Proof.
  exists cursorPositionInput. split; [reflexivity|].
  intros a b. apply geometry_independent. discriminate.
Qed.

(** C2, amended.  There are two runs of the layout computation that
    differ only in the host editor's scroll and layout and whose geometry
    ([codeEditorRect], [widgetRect], [previewEditorWidth],
    [desiredPreviewEditorScrollLeft]) differs.  Two runs that differ only
    in the cursor position, only in the diff list of the view state or only
    in the theme have the same geometry. *)
Theorem geometry_depends_on_host_layout_only :
  (exists a b, differOnlyIn hostScrollAndLayout a b /\ geometry a <> geometry b)
  /\ (forall k a b, k <> hostScrollAndLayout ->
        differOnlyIn k a b -> geometry a = geometry b).
Proof.
  split.
  - destruct geometry_layout_example as (Hdiff & Ha & Hb).
    eexists _, _. split; [exact Hdiff|].
    intros Heq. rewrite <- Heq, Ha in Hb. discriminate.
  - apply geometry_independent.
Qed.

Lemma geometry_depends_on_host_layout_only_example :
  geometry (exampleInputs (Some exampleViewState))
  = geometry
      (with_viewState (Some (with_diff [] exampleViewState))
                      (exampleInputs (Some exampleViewState))).
Proof.
  apply (proj2 geometry_depends_on_host_layout_only diffContent).
  - discriminate.
  - simpl. exists exampleViewState, []. split; reflexivity.
Defined.

(** ** [fitsInsideViewport] *)

Lemma fold_right_max_base (w : string -> Z) lines a b :
  fold_right (fun line m => Z.max (w line) m) (Z.max a b) lines
  = Z.max b (fold_right (fun line m => Z.max (w line) m) a lines).
Proof.
  induction lines as [|line lines IH]; simpl.
  - apply Z.max_comm.
  - rewrite IH. lia.
Qed.

Lemma reduce_max_render editor textModel lines :
  fold_left
    (fun max line => Z.max max (getContentRenderWidth editor line textModel))
    lines 0
  = maxRenderWidth editor textModel lines.
Proof.
  unfold maxRenderWidth. generalize 0 as acc.
  induction lines as [|line lines IH]; intros acc; simpl.
  - reflexivity.
  - rewrite IH.
    apply (fold_right_max_base
             (fun line => getContentRenderWidth editor line textModel)).
Qed.

Lemma maxRenderWidth_upper_bound editor textModel lines :
  0 <= maxRenderWidth editor textModel lines
  /\ forall line, In line lines ->
       getContentRenderWidth editor line textModel
       <= maxRenderWidth editor textModel lines.
Proof.
  induction lines as [|l lines [IH0 IH]]; simpl.
  - split; [lia | intros line []].
  - split; [lia|]. intros line [<-|Hin]; [lia|].
    specialize (IH line Hin). lia.
Qed.

Lemma maxRenderWidth_attained editor textModel lines :
  maxRenderWidth editor textModel lines = 0
  \/ exists line, In line lines
       /\ maxRenderWidth editor textModel lines
          = getContentRenderWidth editor line textModel.
Proof.
  induction lines as [|l lines IH]; simpl.
  - left. reflexivity.
  - destruct (Z.max_spec (getContentRenderWidth editor l textModel)
                         (maxRenderWidth editor textModel lines))
      as [[_ ->]|[_ ->]].
    + destruct IH as [IH|(line & Hin & IH)]; [left; exact IH|].
      right. exists line. split; [right; exact Hin | exact IH].
    + right. exists l. split; [left; reflexivity | reflexivity].
Qed.

(** C8.  [fitsInsideViewport] returns true exactly when the maximum
    content width of the edit's display range in the editor, plus the
    largest render width of the edit's new lines, plus 20, plus 14, is
    strictly less than the editor's width less the content-left offset,
    the width of the vertical scrollbar and the width of the minimap, the
    last one counted only when the minimap's left position is not 0.  The
    14 is the modified end padding of 12 and twice the border width of 1.
    The largest render width is that of [reduce] from 0: it bounds the
    render width of every new line, and it is the render width of one of
    them or 0. *)
Theorem fitsInsideViewport_iff
  (editor : ICodeEditor) (textModel : ITextModel) (edit : InlineEditWithChanges) :
  let widest := maxRenderWidth editor textModel (newLines (lineEdit edit)) in
  (fitsInsideViewport editor textModel edit = true <->
   maxContentWidthInRange editor (deref (displayRange edit)) + widest + 20 + 14
   < width (layoutInfo editor)
     - contentLeft (layoutInfo editor)
     - verticalScrollbarWidth (layoutInfo editor)
     - (if minimapLeft (minimap (layoutInfo editor)) =? 0
        then 0
        else minimapWidth (minimap (layoutInfo editor))))
  /\ 14 = MODIFIED_END_PADDING + 2 * BORDER_WIDTH
  /\ 20 = ORIGINAL_END_PADDING
  /\ (forall line, In line (newLines (lineEdit edit)) ->
        getContentRenderWidth editor line textModel <= widest)
  /\ (widest = 0
      \/ exists line, In line (newLines (lineEdit edit))
           /\ widest = getContentRenderWidth editor line textModel).
Proof.
  cbv zeta. split; [|split; [reflexivity|split; [reflexivity|split]]].
  - unfold fitsInsideViewport. cbv zeta.
    rewrite reduce_max_render, Z.ltb_lt.
    unfold ORIGINAL_END_PADDING, MODIFIED_END_PADDING, BORDER_WIDTH.
    destruct (minimapLeft (minimap (layoutInfo editor)) =? 0); simpl negb;
      cbv iota; lia.
  - apply maxRenderWidth_upper_bound.
  - apply maxRenderWidth_attained.
Qed.

Lemma fitsInsideViewport_iff_example :
  fitsInsideViewport (exampleEditor 64 400) {| getLineCount := 100 |} exampleEdit
  = true.
Proof.
  apply (fitsInsideViewport_iff (exampleEditor 64 400) {| getLineCount := 100 |}
           exampleEdit).
  vm_compute. reflexivity.
Defined.

(** ** The maximum content width while a reader keeps it alive *)

Lemma Dependencies_eqb_eq a b : Dependencies_eqb a b = true <-> a = b.
Proof.
  destruct a as [[r|] v], b as [[r'|] v']; unfold Dependencies_eqb; simpl;
    rewrite ?andb_true_iff, ?Nat.eqb_eq, ?Z.eqb_eq;
    split; try discriminate; try congruence.
  - intros [-> ->]. reflexivity.
  - intros H; injection H as -> ->. split; reflexivity.
Qed.

Lemma Dependencies_eqb_refl a : Dependencies_eqb a a = true.
Proof. apply Dependencies_eqb_eq. reflexivity. Qed.

Lemma widthCacheAfter_snoc history i :
  widthCacheAfter (history ++ [i])
  = snd (_editorMaxContentWidthInRange i (widthCacheAfter history)).
Proof. unfold widthCacheAfter. rewrite fold_left_app. reflexivity. Qed.

Lemma editorMaxContentWidthInRange_cacheOf current past :
  _editorMaxContentWidthInRange current (cacheOf past)
  = (match _originalDisplayRange current with
     | Some _ => maxWidthIn (current :: sinceReset (dependencies current) past)
     | None => 0
     end,
     cacheOf (current :: past)).
Proof.
  unfold _editorMaxContentWidthInRange.
  destruct past as [|i older].
  - simpl. unfold maxObservedWidth, observedWidth.
    destruct (_originalDisplayRange current); reflexivity.
  - cbn [cacheOf lastRead lastValue sinceReset].
    destruct (Dependencies_eqb (dependencies i) (dependencies current)) eqn:Heq.
    + apply Dependencies_eqb_eq in Heq.
      destruct (_originalDisplayRange current) as [r|] eqn:Hr; [|reflexivity].
      assert (Hi : exists r', _originalDisplayRange i = Some r').
      { unfold dependencies in Heq. rewrite Hr in Heq.
        destruct (_originalDisplayRange i); [eauto | discriminate]. }
      destruct Hi as [r' Hi]. rewrite Hi.
      unfold maxObservedWidth. rewrite <- Heq.
      assert (Hw : observedWidth current
                   = maxContentWidthInRange (_editor current) (deref r)).
      { unfold observedWidth. rewrite Hr. reflexivity. }
      change (maxWidthIn (current :: i :: sinceReset (dependencies i) older))
        with (Z.max (observedWidth current)
                    (maxWidthIn (i :: sinceReset (dependencies i) older))).
      rewrite Hw. reflexivity.
    + unfold maxObservedWidth. cbn [cacheOf].
      destruct (_originalDisplayRange current) as [r|] eqn:Hr; [|reflexivity].
      unfold maxWidthIn, observedWidth. simpl. rewrite Hr. reflexivity.
Qed.

Lemma widthCacheAfter_cacheOf history :
  widthCacheAfter history = cacheOf (rev history).
Proof.
  induction history as [|i history IH] using rev_ind.
  - reflexivity.
  - rewrite widthCacheAfter_snoc, IH, editorMaxContentWidthInRange_cacheOf.
    rewrite rev_app_distr. reflexivity.
Qed.

Lemma observedMaxContentWidth_eq history current :
  observedMaxContentWidth history current
  = match _originalDisplayRange current with
    | Some _ =>
        maxWidthIn (current :: sinceReset (dependencies current) (rev history))
    | None => 0
    end.
Proof.
  unfold observedMaxContentWidth.
  rewrite widthCacheAfter_cacheOf, editorMaxContentWidthInRange_cacheOf.
  reflexivity.
Qed.

(** ** The exposed interface *)

Section EventsProperties.

Variable MouseEvent : Type.
Variable Window : Type.
Variable getWindow : MouseEvent -> Window.
Variable ObserverNode : Type.
Variable didMouseMoveDuringHover : ObserverNode -> bool.
Variable nodeListeners : WidgetEvent MouseEvent -> ObserverNode -> ObserverNode.

Lemma dispatchAll_snoc evs ev (w : Exposed MouseEvent Window ObserverNode) :
  dispatchAll getWindow nodeListeners (evs ++ [ev]) w
  = dispatch getWindow nodeListeners ev
      (dispatchAll getWindow nodeListeners evs w).
Proof. unfold dispatchAll. rewrite fold_left_app. reflexivity. Qed.

Lemma clicksOf_snoc (evs : list (WidgetEvent MouseEvent)) ev :
  clicksOf (evs ++ [ev])
  = clicksOf evs ++ match ev with click e => [e] | _ => [] end.
Proof.
  unfold clicksOf. rewrite flat_map_app. simpl. rewrite app_nil_r. reflexivity.
Qed.

Lemma onDidClick_dispatchAll evs (w : Exposed MouseEvent Window ObserverNode) :
  onDidClick (dispatchAll getWindow nodeListeners evs w)
  = onDidClick w
    ++ map (fun e => {| targetWindow := getWindow e; browserEvent := e |})
           (clicksOf evs).
Proof.
  induction evs as [|ev evs IH] using rev_ind.
  - simpl. rewrite app_nil_r. reflexivity.
  - rewrite dispatchAll_snoc, clicksOf_snoc, map_app, app_assoc, <- IH.
    destruct ev; simpl; rewrite ?app_nil_r; reflexivity.
Qed.

(** C7.  After any events on the widget content, [onDidClick] has fired
    once for each click among them, in order, each time with the
    [StandardMouseEvent] that wraps the click and its window, and for no
    other event; and [isHovered] is the [didMouseMoveDuringHover] of the
    widget content. *)
Theorem click_fires_onDidClick_once
  (evs : list (WidgetEvent MouseEvent))
  (w : Exposed MouseEvent Window ObserverNode) :
  onDidClick (dispatchAll getWindow nodeListeners evs w)
  = onDidClick w
    ++ map (fun e => {| targetWindow := getWindow e; browserEvent := e |})
           (clicksOf evs)
  /\ (forall e,
        onDidClick (dispatch getWindow nodeListeners (click e) w)
        = onDidClick w ++ [ {| targetWindow := getWindow e; browserEvent := e |} ])
  /\ (forall e,
        onDidClick (dispatch getWindow nodeListeners (mousedown e) w)
        = onDidClick w
        /\ onDidClick (dispatch getWindow nodeListeners (otherEvent e) w)
           = onDidClick w)
  /\ isHovered didMouseMoveDuringHover
       (dispatchAll getWindow nodeListeners evs w)
     = didMouseMoveDuringHover
         (_widgetContent (dispatchAll getWindow nodeListeners evs w)).
Proof.
  split; [apply onDidClick_dispatchAll|].
  repeat split.
Qed.

End EventsProperties.

(** * Further properties *)

(** ** The line range of the gutter indicator, in general *)

(** X1.  The derivation of the gutter indicator's line range throws a
    TypeError exactly when the view state is undefined or its diff is
    empty.  When it yields a line range, the diff has a first entry, and the
    range is not empty and contains one line only, the first line of that
    entry's modified range. *)
Theorem gutterIndicatorLineRange_result (i : Inputs) :
  (gutterIndicatorLineRange i = Throw TypeError <->
   _viewState i = None
   \/ exists viewState, _viewState i = Some viewState /\ diff viewState = [])
  /\ (forall r, gutterIndicatorLineRange i = Ok r ->
      exists viewState m rest,
        _viewState i = Some viewState
        /\ diff viewState = m :: rest
        /\ LineRange.isEmpty r = false
        /\ forall line,
             LineRange.contains r line = true
             <-> line = LineRange.startLineNumber (modified m)).
Proof.
  destruct (_viewState i) as [viewState|] eqn:Hv.
  - destruct (diff viewState) as [|m rest] eqn:Hd.
    + rewrite (gutterIndicatorLineRange_no_diff i Hv Hd). split.
      * split; [|reflexivity]. intros _. right. exists viewState. auto.
      * intros r H. discriminate H.
    + rewrite (gutterIndicatorLineRange_first i Hv Hd). split.
      * split; [discriminate|].
        intros [H|(vs & H & Hnil)]; [discriminate|].
        injection H as <-. rewrite Hd in Hnil. discriminate.
      * intros r H. injection H as <-.
        exists viewState, m, rest.
        split; [reflexivity|]. split; [exact Hd|]. split.
        -- unfold LineRange.isEmpty. simpl. apply Z.eqb_neq. lia.
        -- intros line. unfold LineRange.contains. simpl.
           rewrite andb_true_iff, Z.leb_le, Z.ltb_lt. lia.
  - rewrite (gutterIndicatorLineRange_undefined i Hv). split.
    + split; [auto | reflexivity].
    + intros r H. discriminate H.
Qed.

(** ** Order of the hidden areas *)

(** X2.  With a count of new text lines that is not negative, the hidden
    areas are at most two and each ends on a line before the one the next
    starts on, so no line is in two of them. *)
Theorem hiddenAreasOf_sorted
  (viewState : ILongDistanceViewState) (textModel : ITextModel)
  (Hcount : 0 <= newTextLineCount viewState) :
  (List.length (hiddenAreasOf viewState textModel) <= 2)%nat
  /\ StronglySorted before (hiddenAreasOf viewState textModel).
Proof.
  rewrite hiddenAreasOf_eq. cbv zeta.
  destruct (1 <? LineRange.startLineNumber (originalLineRange (edit viewState)));
  destruct (LineRange.startLineNumber (originalLineRange (edit viewState))
            + newTextLineCount viewState <=? getLineCount textModel);
  simpl; (split; [lia|]); repeat constructor.
  unfold before. simpl. lia.
Qed.

Lemma hiddenAreasOf_sorted_example :
  StronglySorted before (hiddenAreasOf exampleViewState {| getLineCount := 100 |}).
Proof.
  apply (hiddenAreasOf_sorted exampleViewState {| getLineCount := 100 |}).
  simpl. lia.
Defined.

(** ** Sizes of the layout *)

(** X3.  Every layout the widget computes has a preview 345 pixels wide
    scrolled to 55, a preview rectangle 355 wide and as high as the line of
    the edit's first modified line plus 10, and a widget rectangle 365 wide
    and 38 higher than that line; it reports the host's scroll position
    and content-left.  With a line height that is not negative, the preview
    rectangle lies within the padded one, which lies within the widget's. *)
Theorem previewEditorLayoutInfo_sizes
  (i : Inputs) (info : PreviewLayout.t)
  (Hinfo : _previewEditorLayoutInfo i = Some info) :
  exists viewState,
    _viewState i = Some viewState
    /\ let h := lineHeightForLine (previewEditor i)
                  (LineRange.startLineNumber
                     (modifiedLineRange (edit viewState))) in
       PreviewLayout.previewEditorWidth info = 345
       /\ PreviewLayout.desiredPreviewEditorScrollLeft info = 55
       /\ Rect.width (PreviewLayout.codeEditorRect info) = 355
       /\ Rect.height (PreviewLayout.codeEditorRect info) = h + 10
       /\ Rect.width (PreviewLayout.widgetRect info) = 365
       /\ Rect.height (PreviewLayout.widgetRect info) = h + 38
       /\ PreviewLayout.codeScrollLeft info = scrollLeft (_editor i)
       /\ PreviewLayout.contentLeft info = contentLeft (layoutInfo (_editor i))
       /\ (0 <= h ->
           within (PreviewLayout.codeEditorRect info)
                  (PreviewLayout.codeEditorRectWithPadding info)
           /\ within (PreviewLayout.codeEditorRectWithPadding info)
                     (PreviewLayout.widgetRect info)).
Proof.
  destruct (_viewState i) as [viewState|] eqn:Hv.
  2:{ rewrite (previewEditorLayoutInfo_undefined i Hv) in Hinfo. discriminate. }
  exists viewState. split; [reflexivity|].
  destruct (positionTopLeft (_editor i)
              (Position.make (lineNumber (hint viewState)) MAX_SAFE_INTEGER))
    as [p|] eqn:Hp.
  - rewrite (previewEditorLayoutInfo_defined i Hv Hp) in Hinfo.
    injection Hinfo as <-. cbv zeta.
    unfold Rect.width, Rect.height, within. simpl. repeat split; lia.
  - rewrite (previewEditorLayoutInfo_no_position i Hv Hp) in Hinfo.
    discriminate.
Qed.

Lemma previewEditorLayoutInfo_sizes_example :
  exists info,
    _previewEditorLayoutInfo (exampleInputs (Some exampleViewState)) = Some info
    /\ Rect.height (PreviewLayout.widgetRect info) = 57.
Proof.
  eexists. split; [reflexivity|].
  destruct (previewEditorLayoutInfo_sizes
              (exampleInputs (Some exampleViewState)) eq_refl)
    as (viewState & Hv & H).
  injection Hv as <-. cbv zeta in H.
  destruct H as (_ & _ & _ & _ & _ & Hh & _). exact Hh.
Defined.

(** ** The widget over time *)

Lemma react_eq i d :
  react i d
  = {| _view :=
         match _view d with
         | Some _ => Some {| style_display := _display i |}
         | None => None
         end;
       widgetContentStyle :=
         match _previewEditorLayoutInfo i with
         | Some info => placementOf info
         | None => widgetContentStyle d
         end;
       previewHiddenAreas :=
         match hiddenAreasFor i with
         | Some areas => areas
         | None => previewHiddenAreas d
         end;
       previewDimension :=
         match _previewEditorLayoutInfo i with
         | Some info => Some (dimensionOf info)
         | None => previewDimension d
         end;
       previewScrollLeft :=
         match _previewEditorLayoutInfo i with
         | Some info => PreviewLayout.desiredPreviewEditorScrollLeft info
         | None => previewScrollLeft d
         end |}.
Proof.
  unfold react, _updatePreviewEditor, autorunScrollLeft, autorunLayout,
    keepUpdated_view, hiddenAreasFor, placementOf, dimensionOf.
  destruct (_previewEditorLayoutInfo i); destruct (_viewState i);
    destruct d as [[v|] style areas dim scroll]; reflexivity.
Qed.

Lemma rev_history_snoc initial changes (i : Inputs) :
  rev (initial :: changes ++ [i]) = i :: rev (initial :: changes).
Proof.
  change (initial :: changes ++ [i]) with ((initial :: changes) ++ [i]).
  rewrite rev_app_distr. reflexivity.
Qed.

(** X4.  At any time the widget content has the place, and the preview
    editor the size and the scroll position, computed for the most recent
    inputs that had a layout, the current ones or, when these have none
    (no view state, or no coordinates for the hint), earlier ones; before
    any inputs had a layout the styles are not set, the preview editor has
    not been laid out and its scroll position is 0. *)
Theorem rendered_placement_is_most_recent
  (initial : Inputs) (changes : list Inputs) :
  let latest := mostRecent _previewEditorLayoutInfo (rev (initial :: changes)) in
  widgetContentStyle (rendered initial changes)
  = match latest with
    | Some info => placementOf info
    | None => {| style_top := None; style_left := None; style_width := None |}
    end
  /\ previewDimension (rendered initial changes) = option_map dimensionOf latest
  /\ previewScrollLeft (rendered initial changes)
     = match latest with
       | Some info => PreviewLayout.desiredPreviewEditorScrollLeft info
       | None => 0
       end.
Proof.
  cbv zeta. induction changes as [|i changes IH] using rev_ind.
  - unfold rendered, constructed. simpl fold_left. rewrite react_eq. simpl.
    destruct (_previewEditorLayoutInfo initial); repeat split.
  - rewrite rendered_snoc, rev_history_snoc, react_eq.
    cbn [widgetContentStyle previewDimension previewScrollLeft mostRecent].
    destruct IH as (IH1 & IH2 & IH3).
    destruct (_previewEditorLayoutInfo i); [repeat split|].
    rewrite IH1, IH2, IH3. repeat split.
Qed.

(** X6.  Reacting twice to the same inputs renders what reacting once
    does. *)
Theorem react_idempotent (i : Inputs) (d : Rendered) :
  react i (react i d) = react i d.
Proof.
  rewrite (react_eq i (react i d)), (react_eq i d).
  cbn [_view widgetContentStyle previewHiddenAreas previewDimension
       previewScrollLeft].
  destruct (_view d); destruct (_previewEditorLayoutInfo i);
    destruct (hiddenAreasFor i); reflexivity.
Qed.

(** ** The maximum content width over time *)

(** X8.  When the display range or the version of the text differs from
    what it was at the previous observation, the maximum content width
    starts over: it is what it would be had nothing been observed before,
    the larger of 0 and the content width measured now. *)
Theorem maxContentWidth_resets
  (history : list Inputs) (previous current : Inputs)
  (Hchanged : dependencies previous <> dependencies current) :
  observedMaxContentWidth (history ++ [previous]) current
  = observedMaxContentWidth [] current
  /\ observedMaxContentWidth (history ++ [previous]) current
     = Z.max (observedWidth current) 0.
Proof.
  rewrite !observedMaxContentWidth_eq, rev_app_distr. simpl rev. simpl app.
  cbn [sinceReset].
  destruct (Dependencies_eqb (dependencies previous) (dependencies current))
    eqn:Heq.
  - apply Dependencies_eqb_eq in Heq. contradiction.
  - unfold observedWidth, maxWidthIn. simpl. unfold observedWidth.
    destruct (_originalDisplayRange current); split; reflexivity.
Qed.

Lemma maxContentWidth_resets_example :
  observedMaxContentWidth [exampleInputsAt 0 400] (exampleInputsAt 1 100) = 100.
Proof.
  assert (Hchanged : dependencies (exampleInputsAt 0 400)
                     <> dependencies (exampleInputsAt 1 100)).
  { vm_compute. discriminate. }
  exact (proj2 (@maxContentWidth_resets
                  [] (exampleInputsAt 0 400) (exampleInputsAt 1 100) Hchanged)).
Defined.

(** ** What fitting inside the viewport requires *)

Lemma fitsInsideViewport_true editor textModel edit :
  fitsInsideViewport editor textModel edit = true <->
  maxContentWidthInRange editor (deref (displayRange edit))
  + maxRenderWidth editor textModel (newLines (lineEdit edit)) + 34
  < width (layoutInfo editor)
    - contentLeft (layoutInfo editor)
    - verticalScrollbarWidth (layoutInfo editor)
    - (if minimapLeft (minimap (layoutInfo editor)) =? 0
       then 0
       else minimapWidth (minimap (layoutInfo editor))).
Proof.
  unfold fitsInsideViewport. cbv zeta.
  rewrite reduce_max_render, Z.ltb_lt.
  unfold ORIGINAL_END_PADDING, MODIFIED_END_PADDING, BORDER_WIDTH.
  destruct (minimapLeft (minimap (layoutInfo editor)) =? 0); simpl negb;
    cbv iota; lia.
Qed.

Lemma maxRenderWidth_incl editor textModel lines' lines :
  incl lines' lines ->
  maxRenderWidth editor textModel lines' <= maxRenderWidth editor textModel lines.
Proof.
  intros Hincl. induction lines' as [|l lines' IH]; simpl.
  - apply maxRenderWidth_upper_bound.
  - assert (Hl : In l lines) by (apply Hincl; left; reflexivity).
    assert (Hrest : incl lines' lines).
    { intros x Hx. apply Hincl. right. exact Hx. }
    pose proof (proj2 (maxRenderWidth_upper_bound editor textModel lines) l Hl).
    specialize (IH Hrest). lia.
Qed.

(** X9.  An edit that fits inside the viewport still fits, in the same
    editor, when new lines are dropped from it, reordered or repeated: if
    every new line of a second edit with the same display range is a new
    line of the first, the second fits as well. *)
Theorem fitsInsideViewport_fewer_new_lines
  (editor : ICodeEditor) (textModel : ITextModel)
  (edit edit' : InlineEditWithChanges)
  (Hrange : deref (displayRange edit') = deref (displayRange edit))
  (Hlines : incl (newLines (lineEdit edit')) (newLines (lineEdit edit)))
  (Hfits : fitsInsideViewport editor textModel edit = true) :
  fitsInsideViewport editor textModel edit' = true.
Proof.
  apply fitsInsideViewport_true. apply fitsInsideViewport_true in Hfits.
  rewrite Hrange.
  pose proof (maxRenderWidth_incl editor textModel Hlines). lia.
Qed.

Lemma fitsInsideViewport_fewer_new_lines_example :
  fitsInsideViewport (exampleEditor 64 400) {| getLineCount := 100 |}
    {| originalLineRange := LineRange.make 40 41;
       modifiedLineRange := LineRange.make 40 41;
       displayRange := {| identity := 1; deref := LineRange.make 40 42 |};
       lineEdit := {| newLines := ["let y = 2;"%string] |} |}
  = true.
Proof.
  apply (@fitsInsideViewport_fewer_new_lines
           (exampleEditor 64 400) {| getLineCount := 100 |} exampleEdit).
  - reflexivity.
  - intros line [<-|[]]. right. left. reflexivity.
  - reflexivity.
Defined.

(** X10.  When an edit fits inside the viewport, the display range beside
    any one of the new lines, with the 34 pixels of padding, is narrower
    than the room the editor has: its width less the content-left offset,
    the vertical scrollbar and the minimap when that is not at left 0.  So
    is the display range alone with the padding. *)
Theorem fitsInsideViewport_leaves_room
  (editor : ICodeEditor) (textModel : ITextModel) (edit : InlineEditWithChanges)
  (Hfits : fitsInsideViewport editor textModel edit = true) :
  let room :=
    width (layoutInfo editor)
    - contentLeft (layoutInfo editor)
    - verticalScrollbarWidth (layoutInfo editor)
    - (if minimapLeft (minimap (layoutInfo editor)) =? 0
       then 0
       else minimapWidth (minimap (layoutInfo editor))) in
  maxContentWidthInRange editor (deref (displayRange edit)) + 34 < room
  /\ forall line, In line (newLines (lineEdit edit)) ->
       maxContentWidthInRange editor (deref (displayRange edit))
       + getContentRenderWidth editor line textModel + 34 < room.
Proof.
  cbv zeta. apply fitsInsideViewport_true in Hfits.
  destruct (maxRenderWidth_upper_bound editor textModel
              (newLines (lineEdit edit))) as [H0 Hup].
  split; [lia|]. intros line Hin. specialize (Hup line Hin). lia.
Qed.

Lemma fitsInsideViewport_leaves_room_example :
  400 + 34 < 1200 - 64 - 14 - 86.
Proof.
  exact (proj1 (@fitsInsideViewport_leaves_room
                  (exampleEditor 64 400) {| getLineCount := 100 |} exampleEdit
                  eq_refl)).
Defined.

(** ** Decorations *)

Lemma in_decorations i dec :
  In dec (_decorations i) ->
  exists viewState m,
    _viewState i = Some viewState
    /\ In m (diff viewState)
    /\ In dec (decorationsOf (hasOneInnerChange viewState) m).
Proof.
  unfold _decorations. destruct (_viewState i) as [viewState|]; [|intros []].
  intros Hin. apply in_flat_map in Hin. destruct Hin as (m & Hm & Hdec).
  exists viewState, m. auto.
Qed.

(** What a decoration of the entry [m] is: the whole-line decoration of an
    insertion, or the decoration of one of the inner changes. *)
Lemma in_decorationsOf oneInner m dec :
  In dec (decorationsOf oneInner m) ->
  (LineRange.isEmpty (modified m) = false
   /\ LineRange.isEmpty (original m) = true
   /\ dec = {| range := Range.make (LineRange.startLineNumber (modified m)) 1
                          (LineRange.endLineNumberExclusive (modified m) - 1)
                          MAX_SAFE_INTEGER;
               options := diffWholeLineAddDecoration |})
  \/ (LineRange.isEmpty (modified m) = false
      /\ LineRange.isEmpty (original m) = false
      /\ exists inner c,
           innerChanges m = Some inner /\ In c inner
           /\ LineRange.contains (modified m)
                (Range.startLineNumber (modifiedRange c)) = true
           /\ dec = {| range := modifiedRange c;
                       options :=
                         if Range.isEmpty (modifiedRange c) && oneInner
                         then diffAddDecorationEmpty
                         else diffAddDecoration |}).
Proof.
  unfold decorationsOf, LineRange.toInclusiveRange.
  destruct (LineRange.isEmpty (modified m)) eqn:Hmod; simpl.
  - intros [].
  - destruct (LineRange.isEmpty (original m)) eqn:Horig; simpl.
    + intros [<-|[]]. left. auto.
    + intros Hin. right. split; [reflexivity|]. split; [reflexivity|].
      apply in_flat_map in Hin. destruct Hin as (c & Hc & Hdec).
      destruct (innerChanges m) as [inner|]; [|destruct Hc].
      destruct (LineRange.contains (modified m)
                  (Range.startLineNumber (modifiedRange c))) eqn:Hcontains;
        [|destruct Hdec].
      destruct Hdec as [<-|[]].
      exists inner, c. rewrite andb_true_r. auto.
Qed.

(** X11.  Every decoration of the preview starts on a line of the
    modified range of one of the diff entries, an entry whose modified
    range is not empty; the line ranges are taken as their class builds
    them, with a start that is not after the end. *)
Theorem decorations_start_in_modified_ranges
  (i : Inputs) (viewState : ILongDistanceViewState)
  (Hdefined : _viewState i = Some viewState)
  (Hvalid : Forall (fun m => validLineRange (modified m)) (diff viewState)) :
  forall dec, In dec (_decorations i) ->
    exists m,
      In m (diff viewState)
      /\ LineRange.isEmpty (modified m) = false
      /\ LineRange.contains (modified m) (Range.startLineNumber (range dec))
         = true.
Proof.
  intros dec Hin.
  destruct (in_decorations i dec Hin) as (vs & m & Hv & Hm & Hdec).
  rewrite Hdefined in Hv. injection Hv as <-.
  exists m. split; [exact Hm|].
  destruct (in_decorationsOf _ m dec Hdec)
    as [(Hmod & _ & ->)|(Hmod & _ & inner & c & _ & _ & Hcontains & ->)].
  - split; [exact Hmod|]. simpl.
    rewrite Forall_forall in Hvalid. specialize (Hvalid m Hm).
    unfold validLineRange in Hvalid. unfold LineRange.isEmpty in Hmod.
    apply Z.eqb_neq in Hmod. unfold LineRange.contains.
    apply andb_true_iff. split; [apply Z.leb_le | apply Z.ltb_lt]; lia.
  - split; [exact Hmod | exact Hcontains].
Qed.

Lemma decorations_start_in_modified_ranges_example :
  exists m,
    In m (diff exampleInsertion)
    /\ LineRange.isEmpty (modified m) = false
    /\ LineRange.contains (modified m) 40 = true.
Proof.
  refine (@decorations_start_in_modified_ranges
            (exampleInputs (Some exampleInsertion)) exampleInsertion eq_refl _
            {| range := Range.make 40 1 41 MAX_SAFE_INTEGER;
               options := diffWholeLineAddDecoration |} _).
  - repeat constructor. unfold validLineRange. simpl. lia.
  - left. reflexivity.
Defined.

Lemma hasOneInnerChange_true viewState :
  hasOneInnerChange viewState = true ->
  exists m c, diff viewState = [m] /\ innerChanges m = Some [c].
Proof.
  unfold hasOneInnerChange.
  destruct (diff viewState) as [|m [|m' rest]]; try discriminate.
  destruct (innerChanges m) as [[|c [|c' inner]]|] eqn:Hinner; simpl;
    try discriminate.
  intros _. exists m, c. auto.
Qed.

(** X12.  A decoration with the options of an empty range is the only
    decoration there is: it comes with a diff of one entry that has one
    inner change, whose modified range is empty and is the range
    decorated. *)
Theorem empty_range_decoration_is_alone
  (i : Inputs) (dec : IModelDeltaDecoration)
  (Hin : In dec (_decorations i))
  (Hempty : options dec = diffAddDecorationEmpty) :
  _decorations i = [dec]
  /\ Range.isEmpty (range dec) = true
  /\ exists viewState m c,
       _viewState i = Some viewState
       /\ diff viewState = [m]
       /\ innerChanges m = Some [c]
       /\ range dec = modifiedRange c.
Proof.
  destruct (in_decorations i dec Hin) as (vs & m & Hv & Hm & Hdec).
  destruct (in_decorationsOf _ m dec Hdec)
    as [(_ & _ & ->)|(Hmod & Horig & inner & c & Hinner & Hc & Hcontains & ->)].
  - discriminate Hempty.
  - simpl in Hempty.
    destruct (Range.isEmpty (modifiedRange c)) eqn:Hisempty;
      [|discriminate Hempty].
    destruct (hasOneInnerChange vs) eqn:Hone; [|discriminate Hempty].
    destruct (hasOneInnerChange_true vs Hone) as (m0 & c0 & Hdiff & Hinner0).
    rewrite Hdiff in Hm. destruct Hm as [<-|[]].
    rewrite Hinner0 in Hinner. injection Hinner as <-.
    destruct Hc as [<-|[]].
    split; [|split; [exact Hisempty|]].
    + unfold _decorations. rewrite Hv, Hdiff, Hone. simpl.
      unfold decorationsOf. rewrite Hmod, Horig, Hinner0. simpl.
      rewrite Hcontains, Hisempty. reflexivity.
    + exists vs, m0, c0. auto.
Qed.

Lemma empty_range_decoration_is_alone_example :
  _decorations (exampleInputs (Some exampleRemoval))
  = [ {| range := Range.make 40 5 40 5; options := diffAddDecorationEmpty |} ].
Proof.
  refine (proj1 (@empty_range_decoration_is_alone
                   (exampleInputs (Some exampleRemoval))
                   {| range := Range.make 40 5 40 5;
                      options := diffAddDecorationEmpty |} _ eq_refl)).
  left. reflexivity.
Defined.

(** ** Mouse-down on the widget content *)

Section MouseDownProperties.

Variable MouseEvent : Type.
Variable Window : Type.
Variable getWindow : MouseEvent -> Window.
Variable ObserverNode : Type.
Variable nodeListeners : WidgetEvent MouseEvent -> ObserverNode -> ObserverNode.

Lemma mousedownsOf_snoc (evs : list (WidgetEvent MouseEvent)) ev :
  mousedownsOf (evs ++ [ev])
  = mousedownsOf evs ++ match ev with mousedown e => [e] | _ => [] end.
Proof.
  unfold mousedownsOf. rewrite flat_map_app. simpl. rewrite app_nil_r.
  reflexivity.
Qed.

(** X13.  After any events on the widget content, the events whose default
    action was prevented are the mouse-down events among them, each once
    and in order: a click or another event never has its default action
    prevented, and a mouse-down always has. *)
Theorem mousedown_prevents_default
  (evs : list (WidgetEvent MouseEvent))
  (w : Exposed MouseEvent Window ObserverNode) :
  defaultPrevented (dispatchAll getWindow nodeListeners evs w)
  = defaultPrevented w ++ mousedownsOf evs.
Proof.
  induction evs as [|ev evs IH] using rev_ind.
  - simpl. rewrite app_nil_r. reflexivity.
  - unfold dispatchAll in *. rewrite fold_left_app. simpl fold_left.
    rewrite mousedownsOf_snoc, app_assoc, <- IH.
    destruct ev; simpl; rewrite ?app_nil_r; reflexivity.
Qed.

End MouseDownProperties.

(** * The reactive graph *)

(** ** The values the deriveds hold *)

Lemma constructedGraph_upToDate i : upToDate (constructedGraph i).
Proof. repeat split. Qed.

Lemma step_upToDate c g : upToDate g -> upToDate (step c g).
Proof.
  destruct g as [i dsp lay reads decs d].
  unfold upToDate. simpl. intros (-> & -> & -> & ->).
  destruct c; unfold step; simpl.
  1: repeat split.
  1-3: destruct i as [[vs|] ed pe tm th]; simpl; repeat split.
  - destruct i as [[vs|] ed pe tm th]; simpl; [|repeat split].
    destruct (line =? LineRange.startLineNumber (modifiedLineRange (edit vs)))
      eqn:Hline; simpl; repeat split.
    unfold _previewEditorLayoutInfo. simpl.
    rewrite Z.eqb_sym, Hline. reflexivity.
  - destruct i as [[vs|] ed pe tm th]; repeat split.
  - destruct i as [[vs|] ed pe tm th]; repeat split.
  - destruct i as [[vs|] ed pe tm th]; repeat split.
  - destruct i as [[vs|] ed pe tm th]; repeat split.
Qed.

Lemma graphAfter_snoc initial changes c :
  graphAfter initial (changes ++ [c]) = step c (graphAfter initial changes).
Proof. unfold graphAfter. rewrite fold_left_app. reflexivity. Qed.

Lemma graphAfter_upToDate initial changes :
  upToDate (graphAfter initial changes).
Proof.
  induction changes as [|c changes IH] using rev_ind.
  - apply constructedGraph_upToDate.
  - rewrite graphAfter_snoc. apply step_upToDate. exact IH.
Qed.





(** ** What is rendered, change after change *)

Lemma autoruns_previewHiddenAreas i d :
  previewHiddenAreas (autorunScrollLeft i (autorunLayout i d))
  = previewHiddenAreas d.
Proof.
  unfold autorunScrollLeft, autorunLayout.
  destruct (_previewEditorLayoutInfo i); reflexivity.
Qed.

Lemma updatePreviewEditor_previewHiddenAreas i d :
  previewHiddenAreas (_updatePreviewEditor i (keepUpdated_view i d))
  = match hiddenAreasFor i with
    | Some areas => areas
    | None => previewHiddenAreas d
    end.
Proof.
  unfold _updatePreviewEditor, keepUpdated_view, hiddenAreasFor.
  destruct d as [[v|] style areas dim scroll]; destruct (_viewState i);
    reflexivity.
Qed.

Lemma step_viewState_previewHiddenAreas viewState g :
  previewHiddenAreas (drawn (step (viewStateChange (Some viewState)) g))
  = hiddenAreasOf viewState (_previewTextModel (inputs g)).
Proof.
  unfold step. cbn [layoutDependsOn]. cbv zeta.
  unfold recomputeForViewState. cbn [drawn].
  rewrite updatePreviewEditor_previewHiddenAreas. reflexivity.
Qed.

Lemma step_other_previewHiddenAreas c g :
  definesViewState c = false ->
  previewHiddenAreas (drawn (step c g)) = previewHiddenAreas (drawn g).
Proof.
  intros Hc. unfold step. cbv zeta.
  destruct c as [[vs|]| | | | | | | |]; try discriminate Hc;
    cbn [layoutDependsOn layout_reads set_inputs].
  - unfold recomputeForViewState. cbn [drawn].
    rewrite updatePreviewEditor_previewHiddenAreas. cbn [drawn recomputeLayout].
    apply autoruns_previewHiddenAreas.
  - destruct (layout_reads g); cbn [drawn recomputeLayout];
      rewrite ?autoruns_previewHiddenAreas; reflexivity.
  - destruct (layout_reads g); cbn [drawn recomputeLayout];
      rewrite ?autoruns_previewHiddenAreas; reflexivity.
  - destruct (layout_reads g); cbn [drawn recomputeLayout];
      rewrite ?autoruns_previewHiddenAreas; reflexivity.
  - destruct (layout_reads g) as [l|]; [destruct (line =? l)|];
      cbn [drawn recomputeLayout];
      rewrite ?autoruns_previewHiddenAreas; reflexivity.
  - reflexivity.
  - reflexivity.
  - reflexivity.
  - reflexivity.
Qed.

Lemma fold_step_previewHiddenAreas changes g :
  forallb (fun c => negb (definesViewState c)) changes = true ->
  previewHiddenAreas (drawn (fold_left (fun g c => step c g) changes g))
  = previewHiddenAreas (drawn g).
Proof.
  revert g. induction changes as [|c changes IH]; intros g Hall; simpl.
  - reflexivity.
  - simpl in Hall. apply andb_true_iff in Hall. destruct Hall as [Hc Hall].
    rewrite (IH _ Hall). apply step_other_previewHiddenAreas.
    apply negb_true_iff. exact Hc.
Qed.

(** X5.  After a change to a defined view state, and whatever changes
    follow that set no defined view state, the hidden areas of the preview
    editor are those computed for that view state with the line count the
    preview text model had when the view state changed: a later change of
    the line count, of the host editor or to an undefined view state
    leaves them as they are. *)
Theorem hiddenAreas_are_those_of_last_viewState
  (initial : Inputs) (earlier : list Change)
  (viewState : ILongDistanceViewState) (later : list Change)
  (Hlater : forallb (fun c => negb (definesViewState c)) later = true) :
  previewHiddenAreas
    (drawn (graphAfter initial
              (earlier ++ viewStateChange (Some viewState) :: later)))
  = hiddenAreasOf viewState
      (_previewTextModel (inputs (graphAfter initial earlier))).
Proof.
  unfold graphAfter. rewrite fold_left_app. simpl fold_left.
  rewrite (fold_step_previewHiddenAreas later _ Hlater).
  apply step_viewState_previewHiddenAreas.
Qed.

Lemma hiddenAreas_are_those_of_last_viewState_example :
  previewHiddenAreas
    (drawn (graphAfter (exampleInputs None)
              [viewStateChange (Some exampleViewState); lineCountChange 50;
               viewStateChange None]))
  = [Range.make 1 1 39 1; Range.make 42 1 101 1].
Proof.
  exact (@hiddenAreas_are_those_of_last_viewState
           (exampleInputs None) [] exampleViewState
           [lineCountChange 50; viewStateChange None] eq_refl).
Defined.

Lemma autoruns_eq i d :
  autorunScrollLeft i (autorunLayout i d)
  = {| _view := _view d;
       widgetContentStyle :=
         match _previewEditorLayoutInfo i with
         | Some info => placementOf info
         | None => widgetContentStyle d
         end;
       previewHiddenAreas := previewHiddenAreas d;
       previewDimension :=
         match _previewEditorLayoutInfo i with
         | Some info => Some (dimensionOf info)
         | None => previewDimension d
         end;
       previewScrollLeft :=
         match _previewEditorLayoutInfo i with
         | Some info => PreviewLayout.desiredPreviewEditorScrollLeft info
         | None => previewScrollLeft d
         end |}.
Proof.
  unfold autorunScrollLeft, autorunLayout, placementOf, dimensionOf.
  destruct (_previewEditorLayoutInfo i); destruct d; reflexivity.
Qed.

Lemma viewStateReactions_eq i d :
  _updatePreviewEditor i (keepUpdated_view i d)
  = {| _view :=
         match _view d with
         | Some _ => Some {| style_display := _display i |}
         | None => None
         end;
       widgetContentStyle := widgetContentStyle d;
       previewHiddenAreas :=
         match hiddenAreasFor i with
         | Some areas => areas
         | None => previewHiddenAreas d
         end;
       previewDimension := previewDimension d;
       previewScrollLeft := previewScrollLeft d |}.
Proof.
  unfold _updatePreviewEditor, keepUpdated_view, hiddenAreasFor.
  destruct d as [[v|] style areas dim scroll]; destruct (_viewState i);
    reflexivity.
Qed.

Lemma recomputeLayout_inStep i g : inStep g -> inStep (recomputeLayout i g).
Proof.
  unfold inStep, recomputeLayout. cbn [drawn display_value layout_value].
  intros [Hview _]. rewrite autoruns_eq.
  cbn [_view widgetContentStyle previewDimension previewScrollLeft].
  split; [exact Hview|]. intros info ->. repeat split.
Qed.

Lemma recomputeForViewState_inStep i g :
  inStep g -> inStep (recomputeForViewState i g).
Proof.
  unfold inStep, recomputeForViewState. cbn [drawn display_value layout_value].
  intros [Hview Hlayout]. rewrite viewStateReactions_eq.
  cbn [_view widgetContentStyle previewDimension previewScrollLeft].
  rewrite Hview. split; [reflexivity | exact Hlayout].
Qed.

Lemma set_inputs_inStep i g : inStep g -> inStep (set_inputs i g).
Proof. intros H. exact H. Qed.

Lemma step_inStep c g : inStep g -> inStep (step c g).
Proof.
  intros H. unfold step. cbv zeta.
  assert (Hl : inStep
                 (if layoutDependsOn (layout_reads (set_inputs (changed c (inputs g)) g)) c
                  then recomputeLayout (changed c (inputs g))
                         (set_inputs (changed c (inputs g)) g)
                  else set_inputs (changed c (inputs g)) g)).
  { destruct (layoutDependsOn _ c);
      [apply recomputeLayout_inStep|]; apply set_inputs_inStep; exact H. }
  destruct c; try exact Hl.
  apply recomputeForViewState_inStep. exact Hl.
Qed.

Lemma constructedGraph_inStep i : inStep (constructedGraph i).
Proof.
  unfold inStep, constructedGraph, constructed.
  cbn [drawn display_value layout_value]. rewrite react_eq.
  cbn [_view widgetContentStyle previewDimension previewScrollLeft].
  split; [reflexivity|]. intros info ->. repeat split.
Qed.

(** X7.  After the constructor and any changes, each followed by the
    recomputations it causes, what is rendered agrees with the current
    values of the inputs: the root view element has the display style of
    the current view state and, when the current inputs have a layout, the
    widget content has the top, left and width of that layout's widget
    rectangle and the preview editor the size and the scroll position of
    that layout. *)
Theorem rendered_in_step_with_inputs
  (initial : Inputs) (changes : list Change) :
  let g := graphAfter initial changes in
  _view (drawn g) = Some {| style_display := _display (inputs g) |}
  /\ forall info, _previewEditorLayoutInfo (inputs g) = Some info ->
       widgetContentStyle (drawn g) = placementOf info
       /\ previewDimension (drawn g) = Some (dimensionOf info)
       /\ previewScrollLeft (drawn g)
          = PreviewLayout.desiredPreviewEditorScrollLeft info.
Proof.
  cbv zeta.
  assert (Hin : inStep (graphAfter initial changes)).
  { induction changes as [|c changes IH] using rev_ind.
    - apply constructedGraph_inStep.
    - rewrite graphAfter_snoc. apply step_inStep. exact IH. }
  destruct (graphAfter_upToDate initial changes) as (Hd & Hl & _).
  destruct Hin as [Hview Hlayout]. rewrite <- Hd, <- Hl. auto.
Qed.
